(** * The save flow of the "Customize Profile" form

    A shallow embedding of [profileSchema] and [handleSaveChanges] of the
    [CustomizeProfile] component, together with the fragment of the zod
    validator and of the browser runtime that the two rely on.

    - JavaScript strings are [string]s, one character per code unit;
      [String.length] plays [.length].
    - The [links] object is a [gmap string string]; it is mutated in place
      by the handler, so it lives in the component state that is threaded
      through the flow.
    - The handler is written in a small state-and-exception monad [M] whose
      state also records the calls the handler makes (state setters,
      [profileSchema.parse], [fetch], [console.error]). *)

From stdpp Require Import gmap strings list fin_maps.

Open Scope string_scope.
Open Scope list_scope.

(** ** The zod fragment *)

(** A check attached to a [z.string()] schema, with its custom message. *)
Inductive StringCheck : Type :=
| CheckMin (n : nat) (msg : string)
| CheckMax (n : nat) (msg : string)
| CheckUrl (msg : string).

(** A string schema is the list of its checks, in the order in which the
    builder methods were chained. *)
Definition ZodString : Type := list StringCheck.

Definition z_string : ZodString := [].
Definition z_min (n : nat) (msg : string) (s : ZodString) : ZodString := s ++ [CheckMin n msg].
Definition z_max (n : nat) (msg : string) (s : ZodString) : ZodString := s ++ [CheckMax n msg].
Definition z_url (msg : string) (s : ZodString) : ZodString := s ++ [CheckUrl msg].
(** [nonempty(msg)] is [min(1, msg)]. *)
Definition z_nonempty (msg : string) (s : ZodString) : ZodString := z_min 1 msg s.
(** [optional()] only changes what happens on [undefined]; the form always
    passes a string, on which the inner schema runs unchanged. *)
Definition z_optional (s : ZodString) : ZodString := s.

(** [z.record(value)]: an object whose every value is checked by [value]. *)
Inductive ZodRecord : Type :=
| z_record (value : ZodString).

Definition record_value (r : ZodRecord) : ZodString :=
  match r with z_record value => value end.

(** As for strings, [optional()] changes nothing on the object the form
    passes. *)
Definition z_record_optional (r : ZodRecord) : ZodRecord := r.

Notation "s |> f" := (f s) (at level 45, left associativity, only parsing).

(** The object handed to [profileSchema.parse]. *)
Record ProfileInput : Type := mkInput {
  in_name : string;
  in_bio : string;
  in_background : string;
  in_avatar : string;
  in_borderColor : string;
  in_links : gmap string string
}.

(** A [z.object] schema over the six keys of the form, in shape order. *)
Record ObjectSchema : Type := mkSchema {
  sch_name : ZodString;
  sch_bio : ZodString;
  sch_background : ZodString;
  sch_avatar : ZodString;
  sch_borderColor : ZodString;
  sch_links : ZodRecord
}.

Definition profileSchema : ObjectSchema := {|
  sch_name :=
    z_string
      |> z_min 3 "Name must be between 3 and 15 characters long"
      |> z_max 15 "Name must be between 3 and 15 characters long"
      |> z_nonempty "Name cannot be empty";
  sch_bio := z_string |> z_max 200 "Bio must be 200 characters or fewer" |> z_optional;
  sch_background :=
    z_string |> z_url "Invalid background URL" |> z_nonempty "Background URL cannot be empty";
  sch_avatar :=
    z_string |> z_url "Invalid avatar URL" |> z_nonempty "Avatar URL cannot be empty";
  sch_borderColor := z_string |> z_optional;
  sch_links := z_record (z_string |> z_url "Invalid URL") |> z_record_optional
|}.

(** ** Component state, requests and replies *)

(** The [useState] cells of the component and the session's user id
    ([None] when [session?.user?.id] is undefined). *)
Record Component : Type := mkComponent {
  userId : option string;
  background : string;
  avatar : string;
  name : string;
  bio : string;
  username : string;
  borderColor : string;
  links : gmap string string;
  message : option string;
  error : option string;
  loading : bool;
  saving : bool
}.

(** The object serialised into the body of the update request; [newBio] is
    [None] for JavaScript's [null]. *)
Record Payload : Type := mkPayload {
  p_userId : string;
  newName : string;
  newImage : string;
  newBio : option string;
  newBackgroundImage : string;
  newBorderColor : string;
  newLinks : gmap string string
}.

(** What [response.json()] yields: a rejection when the body is no JSON
    object, otherwise the object's [message] property ([None] when the
    property is missing). *)
Inductive JsonBody : Type :=
| BodyNotJson
| BodyObject (data_message : option string).

(** What awaiting [fetch] yields: a rejected promise or a response. *)
Inductive FetchReply : Type :=
| NetworkFailure
| HttpResponse (status : nat) (body : JsonBody).

(** [response.ok]: the status is in the range 200-299. *)
Definition response_ok (status : nat) : bool := (200 <=? status)%nat && (status <=? 299)%nat.

(** The calls the handler makes, in program order. *)
Inductive Event : Type :=
| CallSetMessage (v : option string)
| CallSetError (v : option string)
| CallSetSaving (b : bool)
| CallParse (input : ProfileInput)
| CallFetch (url method : string) (body : Payload)
| CallConsoleError.

Record World : Type := mkWorld {
  comp : Component;
  events : list Event
}.

(** ** The monad of the handler *)

Inductive Exn : Type :=
| ZodError (errors : list string)
| OtherError.

Inductive Outcome (A : Type) : Type :=
| Returned (a : A)
| Thrown (e : Exn).
Arguments Returned {A} a.
Arguments Thrown {A} e.

Definition M (A : Type) : Type := World -> Outcome A * World.

Definition ret {A} (a : A) : M A := fun w => (Returned a, w).

Definition bind {A B} (c : M A) (k : A -> M B) : M B :=
  fun w =>
    match c w with
    | (Returned a, w1) => k a w1
    | (Thrown e, w1) => (Thrown e, w1)
    end.

Definition throw {A} (e : Exn) : M A := fun w => (Thrown e, w).

Notation "'let!' x ':=' c 'in' k" := (bind c (fun x => k))
  (at level 10, x name, c at level 100, k at level 200).
Notation "c1 ;;; c2" := (bind c1 (fun _ => c2))
  (at level 100, c2 at level 200, right associativity).

(** [try { body } catch (e) { handler e } finally { fin }]: the outcome of
    the statement is the one of [body] or of [handler], unless [fin] itself
    throws. *)
Definition try_catch_finally {A} (body : M A) (handler : Exn -> M A) (fin : M unit) : M A :=
  fun w =>
    let '(r, w1) :=
      match body w with
      | (Returned a, w1) => (Returned a, w1)
      | (Thrown e, w1) => handler e w1
      end in
    match fin w1 with
    | (Returned _, w2) => (r, w2)
    | (Thrown e, w2) => (Thrown e, w2)
    end.

Definition record (e : Event) : M unit :=
  fun w => (Returned tt, {| comp := comp w; events := events w ++ [e] |}).

Definition modify (f : Component -> Component) : M unit :=
  fun w => (Returned tt, {| comp := f (comp w); events := events w |}).

Definition getComponent : M Component := fun w => (Returned (comp w), w).

Definition with_message (v : option string) (c : Component) : Component :=
  {| userId := userId c; background := background c; avatar := avatar c;
     name := name c; bio := bio c; username := username c;
     borderColor := borderColor c; links := links c;
     message := v; error := error c; loading := loading c; saving := saving c |}.

Definition with_error (v : option string) (c : Component) : Component :=
  {| userId := userId c; background := background c; avatar := avatar c;
     name := name c; bio := bio c; username := username c;
     borderColor := borderColor c; links := links c;
     message := message c; error := v; loading := loading c; saving := saving c |}.

Definition with_saving (b : bool) (c : Component) : Component :=
  {| userId := userId c; background := background c; avatar := avatar c;
     name := name c; bio := bio c; username := username c;
     borderColor := borderColor c; links := links c;
     message := message c; error := error c; loading := loading c; saving := b |}.

Definition with_links (m : gmap string string) (c : Component) : Component :=
  {| userId := userId c; background := background c; avatar := avatar c;
     name := name c; bio := bio c; username := username c;
     borderColor := borderColor c; links := m;
     message := message c; error := error c; loading := loading c; saving := saving c |}.

Definition setMessage (v : option string) : M unit :=
  record (CallSetMessage v) ;;; modify (with_message v).
Definition setError (v : option string) : M unit :=
  record (CallSetError v) ;;; modify (with_error v).
Definition setSaving (b : bool) : M unit :=
  record (CallSetSaving b) ;;; modify (with_saving b).
Definition console_error : M unit := record CallConsoleError.

(** [!userId]: undefined and the empty string are falsy. *)
Definition js_not (u : option string) : bool :=
  match u with
  | None => true
  | Some s => if decide (s = "") then true else false
  end.

(** The text a template literal gives for [data.message]. *)
Definition template_text (v : option string) : string :=
  match v with
  | Some s => s
  | None => "undefined"
  end.

(** ** Cleaning the links *)

(** One turn of the loop: [if (links[key] === "") delete links[key]]. *)
Definition clean_step (m : gmap string string) (key : string) : gmap string string :=
  if decide (m !! key = Some "") then delete key m else m.

(** [Object.keys(links)]. *)
Definition object_keys (m : gmap string string) : list string := (map_to_list m).*1.

(** The whole loop, run over the keys the object has when the loop starts. *)
Definition cleanLinks (m : gmap string string) : gmap string string :=
  foldl clean_step m (object_keys m).

(** ** Parsing, and the handler *)

Section SaveFlow.

(** [isUrl s] tells whether the runtime's [new URL(s)] succeeds (zod's
    [url] check); [updateUser] is the server behind the update endpoint,
    as seen through [fetch] and [response.json()]. *)
Variable isUrl : string -> bool.
Variable updateUser : string -> string -> Payload -> FetchReply.

(** One check on one string: the messages of the issues it adds. *)
Definition run_check (c : StringCheck) (s : string) : list string :=
  match c with
  | CheckMin n msg => if (String.length s <? n)%nat then [msg] else []
  | CheckMax n msg => if (n <? String.length s)%nat then [msg] else []
  | CheckUrl msg => if isUrl s then [] else [msg]
  end.

(** A string schema runs all of its checks, in order, and keeps every
    issue: a failed check does not stop the later ones. *)
Definition string_issues (sch : ZodString) (s : string) : list string :=
  concat (map (fun c => run_check c s) sch).

(** A [z.record] runs its value schema on every entry of the object. *)
Definition record_issues (sch : ZodRecord) (m : gmap string string) : list string :=
  concat (map (fun kv => string_issues (record_value sch) kv.2) (map_to_list m)).

(** A [z.object] visits its keys in shape order and collects the issues of
    all of them. *)
Definition object_issues (sch : ObjectSchema) (i : ProfileInput) : list string :=
  string_issues (sch_name sch) (in_name i)
  ++ string_issues (sch_bio sch) (in_bio i)
  ++ string_issues (sch_background sch) (in_background i)
  ++ string_issues (sch_avatar sch) (in_avatar i)
  ++ string_issues (sch_borderColor sch) (in_borderColor i)
  ++ record_issues (sch_links sch) (in_links i).

(** [schema.parse(input)]: returns the input, or throws a [ZodError] that
    carries all the issues. *)
Definition parse (sch : ObjectSchema) (i : ProfileInput) : M ProfileInput :=
  record (CallParse i) ;;;
  match object_issues sch i with
  | [] => ret i
  | errors => throw (ZodError errors)
  end.

(** [await fetch(url, {method, body})] followed by the status and the
    parsed body; a rejected promise is a thrown exception. *)
Definition fetch (url method : string) (body : Payload) : M (nat * JsonBody) :=
  record (CallFetch url method body) ;;;
  match updateUser url method body with
  | NetworkFailure => throw OtherError
  | HttpResponse status b => ret (status, b)
  end.

(** [await response.json()] *)
Definition response_json (b : JsonBody) : M (option string) :=
  match b with
  | BodyNotJson => throw OtherError
  | BodyObject m => ret m
  end.

(** The [for] loop over [Object.keys(links)]: the object held in the state
    is itself mutated. *)
Definition clean_links_in_place : M unit :=
  modify (fun c => with_links (cleanLinks (links c)) c).

(** The click handler.  [c] holds the values the closure captured from the
    render (the setters do not change them); [c'] is read after the loop,
    because [links] names the very object the loop has mutated.  In the
    [else] branch [userId] is a non-empty string. *)
Definition handleSaveChanges : M unit :=
  setMessage None ;;;
  setError None ;;;
  setSaving true ;;;
  let! c := getComponent in
  if js_not (userId c) then
    setError (Some "User not authenticated") ;;;
    setSaving false
  else
    try_catch_finally
      (clean_links_in_place ;;;
       let! c' := getComponent in
       parse profileSchema
         {| in_name := name c; in_bio := bio c; in_background := background c;
            in_avatar := avatar c; in_borderColor := borderColor c;
            in_links := links c' |} ;;;
       let! response :=
         fetch "/api/updateUser" "PUT"
           {| p_userId := default "" (userId c);
              newName := name c;
              newImage := avatar c;
              newBio := if decide (bio c = "") then None else Some (bio c);
              newBackgroundImage := background c;
              newBorderColor := borderColor c;
              newLinks := links c' |} in
       let! data_message := response_json response.2 in
       if response_ok response.1 then setMessage data_message
       else setError (Some (String.append "Error: " (template_text data_message))))
      (fun validationError =>
         match validationError with
         | ZodError errors =>
             match errors with
             | first :: _ => setError (Some first)
             | [] => throw OtherError
             end
         | OtherError =>
             console_error ;;;
             setError (Some "An unexpected error occurred")
         end)
      (setSaving false).

(** The state the handler leaves, started from component [c] with an empty
    record of calls. *)
Definition run (c : Component) : World :=
  (handleSaveChanges {| comp := c; events := [] |}).2.

End SaveFlow.

(** ** Sample environments and drafts *)

(** A concrete URL recogniser to run the flow on sample drafts: it accepts
    the strings that start with [http://] or [https://] and go on for at
    least one more character.  On every sample string used below it gives
    the answer of the runtime's URL parser. *)
Definition http_url (s : string) : bool :=
  (String.prefix "http://" s && (7 <? String.length s)%nat)
  || (String.prefix "https://" s && (8 <? String.length s)%nat).

(** An update endpoint that answers every request with the given status
    and a JSON body whose [message] is [msg]. *)
Definition answering (status : nat) (msg : string) : string -> string -> Payload -> FetchReply :=
  fun _ _ _ => HttpResponse status (BodyObject (Some msg)).

(** A freshly loaded form for user [uid], showing the leftovers [m] and [e]
    of an earlier save. *)
Definition form (uid : option string) (n b bg av bc : string)
    (l : gmap string string) (m e : option string) : Component :=
  {| userId := uid; background := bg; avatar := av; name := n; bio := b;
     username := ""; borderColor := bc; links := l;
     message := m; error := e; loading := false; saving := false |}.

(** The draft of the end-to-end example, for user [uid]. *)
Definition alice_form (uid : string) (bc : string) (m e : option string) : Component :=
  form (Some uid) "Alice" "" "https://x.com/a.png" "https://x.com/b.png" bc
       {[ "website" := "" ]} m e.

Definition alice : Component := alice_form "u1" "#ffffff" None None.

(** The same draft shown after an earlier save left a message and an error. *)
Definition alice_again : Component :=
  alice_form "u1" "#ffffff" (Some "Profile updated") (Some "Invalid URL").

(** A name that is too short, and no links. *)
Definition al : Component :=
  form (Some "u1") "Al" "" "https://x.com/a.png" "https://x.com/b.png" "#ffffff"
       ∅ None None.

(** Nobody is signed in. *)
Definition guest : Component :=
  form None "Alice" "" "https://x.com/a.png" "https://x.com/b.png" "#ffffff"
       {[ "website" := "" ]} (Some "Profile updated") None.

Fixpoint text_of_length (n : nat) : string :=
  match n with
  | O => EmptyString
  | S n' => String.append "a" (text_of_length n')
  end.

(** A bio of 201 characters under a good name, and under a short one. *)
Definition alice_verbose : Component :=
  form (Some "u1") "Alice" (text_of_length 201) "https://x.com/a.png"
       "https://x.com/b.png" "#ffffff" ∅ None None.

Definition al_verbose : Component :=
  form (Some "u1") "Al" (text_of_length 201) "https://x.com/a.png"
       "https://x.com/b.png" "#ffffff" ∅ None None.

(** One link left blank and one that is no URL, under a good name and
    under a short one. *)
Definition alice_bad_link : Component :=
  form (Some "u1") "Alice" "" "https://x.com/a.png" "https://x.com/b.png" "#ffffff"
       {[ "website" := ""; "github" := "not a url" ]} None None.

Definition al_bad_link : Component :=
  form (Some "u1") "Al" "" "https://x.com/a.png" "https://x.com/b.png" "#ffffff"
       {[ "website" := ""; "github" := "not a url" ]} None None.

(** ** What the handler reads and sends *)

(** The argument of [profileSchema.parse], with the links as the loop has
    left them. *)
Definition cleaned_draft (c : Component) : ProfileInput :=
  {| in_name := name c; in_bio := bio c; in_background := background c;
     in_avatar := avatar c; in_borderColor := borderColor c;
     in_links := cleanLinks (links c) |}.

(** The object passed to [JSON.stringify]. *)
Definition request_body (c : Component) : Payload :=
  {| p_userId := default "" (userId c);
     newName := name c;
     newImage := avatar c;
     newBio := if decide (bio c = "") then None else Some (bio c);
     newBackgroundImage := background c;
     newBorderColor := borderColor c;
     newLinks := cleanLinks (links c) |}.

(** The bodies of the requests among the recorded calls. *)
Definition requests (w : World) : list Payload :=
  concat (map (fun e => match e with CallFetch _ _ p => [p] | _ => [] end) (events w)).

(** The inputs of the schema checks among the recorded calls. *)
Definition parses (w : World) : list ProfileInput :=
  concat (map (fun e => match e with CallParse i => [i] | _ => [] end) (events w)).

(** The state once the three opening setters have run. *)
Definition begun (c : Component) : Component :=
  with_saving true (with_error None (with_message None c)).

(** The state once the loop over the links has run as well. *)
Definition cleaned (c : Component) : Component :=
  with_links (cleanLinks (links c)) (begun c).

(** What the last setter of the [try] block stores, by the reply. *)
Definition settled (reply : FetchReply) (c : Component) : Component :=
  match reply with
  | NetworkFailure | HttpResponse _ BodyNotJson =>
      with_error (Some "An unexpected error occurred") c
  | HttpResponse status (BodyObject m) =>
      if response_ok status then with_message m c
      else with_error (Some (String.append "Error: " (template_text m))) c
  end.

Definition settling_calls (reply : FetchReply) : list Event :=
  match reply with
  | NetworkFailure | HttpResponse _ BodyNotJson =>
      [CallConsoleError; CallSetError (Some "An unexpected error occurred")]
  | HttpResponse status (BodyObject m) =>
      if response_ok status then [CallSetMessage m]
      else [CallSetError (Some (String.append "Error: " (template_text m)))]
  end.

(** ** The rest of the Customize Profile component *)

(** [v || d] for a string [v] that may be missing: the empty string is
    falsy too. *)
Definition js_or (v : option string) (d : string) : string :=
  match v with
  | Some s => if decide (s = "") then d else s
  | None => d
  end.

(** What [v && <div>{v}</div>] renders: the text of the box, if any. *)
Definition js_and_box (v : option string) : option string :=
  match v with
  | Some s => if decide (s = "") then None else Some s
  | None => None
  end.

(** [handleLinkChange]: the updater builds a fresh object from the previous
    links. *)
Definition handleLinkChange (key value : string) (c : Component) : Component :=
  with_links (<[key := value]> (links c)) c.

(** The [value] of a link input: [links.key || ""]. *)
Definition link_input (key : string) (c : Component) : string :=
  js_or (links c !! key) "".

(** The conditional parts of the rendered form. *)
Definition error_box (c : Component) : option string := js_and_box (error c).
Definition message_box (c : Component) : option string := js_and_box (message c).
Definition button_label (c : Component) : string :=
  if saving c then "Saving..." else "Save Changes".
Definition shows_spinner (c : Component) : bool := loading c.
(** *** A monad over any state and any kind of call *)

Definition Eff (St Ev A : Type) : Type := St * list Ev -> Outcome A * (St * list Ev).

Definition eff_ret {St Ev A} (a : A) : Eff St Ev A := fun w => (Returned a, w).

Definition eff_bind {St Ev A B} (c : Eff St Ev A) (k : A -> Eff St Ev B) : Eff St Ev B :=
  fun w =>
    match c w with
    | (Returned a, w1) => k a w1
    | (Thrown e, w1) => (Thrown e, w1)
    end.

Definition eff_throw {St Ev A} (e : Exn) : Eff St Ev A := fun w => (Thrown e, w).

Definition eff_call {St Ev} (e : Ev) : Eff St Ev unit :=
  fun w => (Returned tt, (w.1, w.2 ++ [e])).

Definition eff_set {St Ev} (f : St -> St) : Eff St Ev unit :=
  fun w => (Returned tt, (f w.1, w.2)).

Definition eff_get {St Ev} : Eff St Ev St := fun w => (Returned w.1, w).

(** [try { body } catch (e) { handler e }] *)
Definition eff_try_catch {St Ev A} (body : Eff St Ev A) (handler : Exn -> Eff St Ev A) :
    Eff St Ev A :=
  fun w =>
    match body w with
    | (Returned a, w1) => (Returned a, w1)
    | (Thrown e, w1) => handler e w1
    end.

(** [try { body } catch (e) { handler e } finally { fin }] *)
Definition eff_try_catch_finally {St Ev A} (body : Eff St Ev A)
    (handler : Exn -> Eff St Ev A) (fin : Eff St Ev unit) : Eff St Ev A :=
  fun w =>
    let '(r, w1) := eff_try_catch body handler w in
    match fin w1 with
    | (Returned _, w2) => (r, w2)
    | (Thrown e, w2) => (Thrown e, w2)
    end.

Notation "'let*' x ':=' c 'in' k" := (eff_bind c (fun x => k))
  (at level 10, x name, c at level 100, k at level 200).
Notation "c1 >>> c2" := (eff_bind c1 (fun _ => c2))
  (at level 100, c2 at level 200, right associativity).

(** *** Loading the profile *)

(** [data.user] of the read endpoint.  The fields the component stores in
    string cells are strings; [bio] and [links] may be null or missing. *)
Record UserJson : Type := mkUser {
  u_backgroundImage : string;
  u_image : string;
  u_name : string;
  u_bio : option string;
  u_username : string;
  u_borderColor : string;
  u_links : option (gmap string string)
}.

(** The parsed body of the read endpoint: no JSON at all, or an object with
    its [user] and [message] properties, either of which may be missing. *)
Inductive ProfileBody : Type :=
| ProfileNotJson
| ProfileObject (data_user : option UserJson) (data_message : option string).

Inductive ProfileReply : Type :=
| ProfileNetworkFailure
| ProfileResponse (status : nat) (body : ProfileBody).

(** The calls of the loading effect. *)
Inductive LoadCall : Type :=
| CallGet (url : string)
| CallLogError.

Definition with_profile (u : UserJson) (c : Component) : Component :=
  {| userId := userId c;
     background := u_backgroundImage u;
     avatar := u_image u;
     name := u_name u;
     bio := js_or (u_bio u) "";
     username := u_username u;
     borderColor := u_borderColor u;
     links := default ∅ (u_links u);
     message := message c; error := error c; loading := loading c; saving := saving c |}.

Definition with_loading (b : bool) (c : Component) : Component :=
  {| userId := userId c; background := background c; avatar := avatar c;
     name := name c; bio := bio c; username := username c;
     borderColor := borderColor c; links := links c;
     message := message c; error := error c; loading := b; saving := saving c |}.

Section LoadFlow.

(** The read endpoint, as seen through [fetch] and [response.json()]. *)
Variable getUserProfile : string -> ProfileReply.

(** [await fetch(url)]: a rejected promise is a thrown exception. *)
Definition fetch_profile (url : string) : Eff Component LoadCall (nat * ProfileBody) :=
  eff_call (CallGet url) >>>
  match getUserProfile url with
  | ProfileNetworkFailure => eff_throw OtherError
  | ProfileResponse status body => eff_ret (status, body)
  end.

(** [await response.json()]: the [user] and the [message] of the body. *)
Definition profile_json (b : ProfileBody) :
    Eff Component LoadCall (option UserJson * option string) :=
  match b with
  | ProfileNotJson => eff_throw OtherError
  | ProfileObject u m => eff_ret (u, m)
  end.

(** The effect run when the component mounts and when [userId] changes.
    Reading a property of a missing [data.user] throws, before any setter
    has run. *)
Definition fetchUserProfile : Eff Component LoadCall unit :=
  let* c := eff_get in
  if js_not (userId c) then eff_ret tt
  else
    eff_try_catch_finally
      (let* response :=
         fetch_profile (String.append "/api/getUserProfile?userId=" (default "" (userId c))) in
       let* data := profile_json response.2 in
       if response_ok response.1 then
         match data.1 with
         | Some u => eff_set (with_profile u)
         | None => eff_throw OtherError
         end
       else eff_set (with_error data.2))
      (fun _ =>
         eff_call CallLogError >>>
         eff_set (with_error (Some "An unexpected error occurred")))
      (eff_set (with_loading false)).

(** The component and the calls once the effect has run on [c]. *)
Definition loaded (c : Component) : Component * list LoadCall :=
  (fetchUserProfile (c, [])).2.

End LoadFlow.

(** ** The Settings component *)

Module Settings.

(** The text of the email box is kept as the list of its UTF-16 code
    units, which is what the regular expression inspects. *)
Definition units (s : string) : list N := map Ascii.N_of_ascii (String.list_ascii_of_string s).

(** *** The regular expression *)

(** [\s]: the white space and line terminator code units. *)
Definition is_space (u : N) : bool :=
  ((9 <=? u) && (u <=? 13)
   || (u =? 32) || (u =? 160) || (u =? 5760)
   || (8192 <=? u) && (u <=? 8202)
   || (u =? 8232) || (u =? 8233) || (u =? 8239) || (u =? 8287)
   || (u =? 12288) || (u =? 65279))%N.

(** The pieces the pattern is made of: [^], [$], one literal code unit,
    and [[^...]+] for a set of excluded code units. *)
Inductive Atom : Type :=
| AtStart
| AtEnd
| Lit (u : N)
| PlusNotIn (excluded : N -> bool).

(** [[^...]+] followed by [rest]: at least one code unit outside the set,
    the longer runs tried first. *)
Fixpoint plus_loop (excluded : N -> bool) (rest : list N -> bool) (s : list N) : bool :=
  match s with
  | x :: s' => negb (excluded x) && (plus_loop excluded rest s' || rest s')
  | [] => false
  end.

(** Matching the pattern at one position of the input; [first] tells
    whether that position is index 0. *)
Fixpoint match_here (p : list Atom) (first : bool) (s : list N) : bool :=
  match p with
  | [] => true
  | AtStart :: p' => first && match_here p' first s
  | AtEnd :: p' => match s with [] => match_here p' first s | _ :: _ => false end
  | Lit u :: p' =>
      match s with
      | x :: s' => (x =? u)%N && match_here p' false s'
      | [] => false
      end
  | PlusNotIn excluded :: p' => plus_loop excluded (match_here p' false) s
  end.

(** The search for a match, from every position of the input in turn. *)
Fixpoint search (p : list Atom) (first : bool) (s : list N) : bool :=
  match_here p first s
  || match s with
     | [] => false
     | _ :: s' => search p false s'
     end.

(** [regex.test(s)] *)
Definition test (p : list Atom) (s : list N) : bool := search p true s.

(** [[^\s@]] excludes white space and the at sign. *)
Definition space_or_at (u : N) : bool := is_space u || (u =? 64)%N.

(** [/^[^\s@]+@[^\s@]+\.[^\s@]+$/] *)
Definition emailRegex : list Atom :=
  [AtStart; PlusNotIn space_or_at; Lit 64; PlusNotIn space_or_at; Lit 46;
   PlusNotIn space_or_at; AtEnd].

(** *** State, calls and replies *)

Record State : Type := mkState {
  email : list N;
  font : string;
  title : string;
  description : string;
  loading : bool
}.

(** A session, with the identifier of its user. *)
Record Session : Type := mkSession { user_id : string }.

(** The objects passed to [JSON.stringify]. *)
Inductive Body : Type :=
| DeleteBody (userId : string)
| EmailBody (userId : string) (newEmail : list N).

Inductive Call : Type :=
| CallFetch (url method : string) (body : option Body)
| CallAlert (text : string)
| CallConsoleError (text : string)
| CallConsoleLog (text : string)
| CallSignOut (callbackUrl : string).

(** A parsed body: no JSON, or an object with the email of its [user] (if
    it has a user) and its [message] (if it has one). *)
Inductive Json : Type :=
| NotJson
| Object (data_user_email : option (list N)) (data_message : option string).

Inductive Reply : Type :=
| Failure
| Response (status : nat) (body : Json).

Definition with_email (e : list N) (s : State) : State :=
  {| email := e; font := font s; title := title s; description := description s;
     loading := loading s |}.

Definition with_loading (b : bool) (s : State) : State :=
  {| email := email s; font := font s; title := title s; description := description s;
     loading := b |}.

Section Handlers.

(** The session of the page, the server behind [fetch], and whether the
    promise of [signOut] resolves. *)
Variable session : option Session.
Variable server : string -> string -> option Body -> Reply.
Variable signOut_resolves : bool.

Definition fetch (url method : string) (body : option Body) : Eff State Call (nat * Json) :=
  eff_call (CallFetch url method body) >>>
  match server url method body with
  | Failure => eff_throw OtherError
  | Response status b => eff_ret (status, b)
  end.

Definition response_json (b : Json) : Eff State Call (option (list N) * option string) :=
  match b with
  | NotJson => eff_throw OtherError
  | Object e m => eff_ret (e, m)
  end.

Definition signOut (callbackUrl : string) : Eff State Call unit :=
  eff_call (CallSignOut callbackUrl) >>>
  if signOut_resolves then eff_ret tt else eff_throw OtherError.

(** [session?.user?.id] *)
Definition userId : option string := user_id <$> session.

Definition fetchUserProfile : Eff State Call unit :=
  if js_not userId then eff_ret tt
  else
    eff_try_catch
      (let* response :=
         fetch (String.append "/api/getUserProfile?userId=" (default "" userId)) "GET" None in
       let* data := response_json response.2 in
       if response_ok response.1 then
         match data.1 with
         | Some e => eff_set (with_email e)
         | None => eff_throw OtherError
         end
       else eff_call (CallConsoleError (template_text data.2)))
      (fun _ => eff_call (CallConsoleError "Error fetching user profile:")).

Definition deleteUser : Eff State Call unit :=
  eff_try_catch
    (eff_set (with_loading true) >>>
     match session with
     | None => eff_call (CallConsoleError "User is not authenticated")
     | Some sess =>
         let* response :=
           fetch "/api/updateSettings" "DELETE" (Some (DeleteBody (user_id sess))) in
         if response_ok response.1 then signOut "/"
         else
           eff_call (CallConsoleError "Failed to delete account") >>>
           eff_call (CallAlert "Failed to delete account") >>>
           eff_set (with_loading false)
     end)
    (fun _ =>
       eff_call (CallConsoleError "Error deleting account:") >>>
       eff_call (CallAlert "Error deleting account") >>>
       eff_set (with_loading false)).

Definition updateEmail : Eff State Call unit :=
  eff_try_catch
    (match session with
     | None => eff_call (CallConsoleError "User is not authenticated")
     | Some sess =>
         let* s := eff_get in
         if negb (test emailRegex (email s)) then
           eff_call (CallConsoleError "Invalid email format") >>>
           eff_call (CallAlert "Please enter a valid email address")
         else
           let* response :=
             fetch "/api/updateSettings" "PUT" (Some (EmailBody (user_id sess) (email s))) in
           if response_ok response.1 then
             let* data := response_json response.2 in
             eff_call (CallConsoleLog (template_text data.2)) >>>
             eff_call (CallAlert (template_text data.2))
           else
             eff_call (CallConsoleError "Failed to update email") >>>
             eff_call (CallAlert "Failed to update email")
     end)
    (fun _ => eff_call (CallConsoleError "Error updating email:")).

(** The state and the calls once a handler has run on [s]. *)
Definition after (h : Eff State Call unit) (s : State) : State * list Call := (h (s, [])).2.

End Handlers.

(** The requests among the calls. *)
Definition fetches (calls : list Call) : list (string * string * option Body) :=
  concat (map (fun c => match c with CallFetch u m b => [(u, m, b)] | _ => [] end) calls).

Definition alerts (calls : list Call) : list string :=
  concat (map (fun c => match c with CallAlert t => [t] | _ => [] end) calls).

Definition signOuts (calls : list Call) : list string :=
  concat (map (fun c => match c with CallSignOut u => [u] | _ => [] end) calls).

End Settings.

(** How many times the recorded calls log to the console. *)
Definition console_errors (w : World) : nat :=
  length (concat (map (fun e => match e with CallConsoleError => [tt] | _ => [] end)
                      (events w))).

(** The messages the schema can raise. *)
Definition schema_messages : list string :=
  ["Name must be between 3 and 15 characters long"; "Name cannot be empty";
   "Bio must be 200 characters or fewer";
   "Invalid background URL"; "Background URL cannot be empty";
   "Invalid avatar URL"; "Avatar URL cannot be empty"; "Invalid URL"].

(** The address the profile is read from. *)
Definition profile_url (c : Component) : string :=
  String.append "/api/getUserProfile?userId=" (default "" (userId c)).

(** The addresses read among the calls, and how often the calls log. *)
Definition gets (calls : list LoadCall) : list string :=
  concat (map (fun e => match e with CallGet u => [u] | CallLogError => [] end) calls).
Definition load_errors (calls : list LoadCall) : nat :=
  length (concat (map (fun e => match e with CallLogError => [tt] | CallGet _ => [] end) calls)).

(** A reply the component can use: a success status and a JSON body with
    a [user]. *)
Definition usable (r : ProfileReply) : option UserJson :=
  match r with
  | ProfileResponse status (ProfileObject (Some u) _) =>
      if response_ok status then Some u else None
  | _ => None
  end.

(** A reply that tells its own error: a non-success status and a JSON
    body. *)
Definition refusal (r : ProfileReply) : option (option string) :=
  match r with
  | ProfileResponse status (ProfileObject _ m) =>
      if response_ok status then None else Some m
  | _ => None
  end.

(** The request [updateEmail] makes for the state [s] of a signed-in user. *)
Definition email_request (sess : Settings.Session) (s : Settings.State) :
    string * string * option Settings.Body :=
  ("/api/updateSettings", "PUT",
   Some (Settings.EmailBody (Settings.user_id sess) (Settings.email s))).

(** The request [deleteUser] makes for a signed-in user. *)
Definition delete_request (sess : Settings.Session) : string * string * option Settings.Body :=
  ("/api/updateSettings", "DELETE", Some (Settings.DeleteBody (Settings.user_id sess))).

(** ** More sample environments *)

(** An update endpoint that cannot be reached, and one whose JSON bodies
    have no [message]. *)
Definition unreachable : string -> string -> Payload -> FetchReply :=
  fun _ _ _ => NetworkFailure.
Definition answering_without_message (status : nat) :
    string -> string -> Payload -> FetchReply :=
  fun _ _ _ => HttpResponse status (BodyObject None).

(** The component as it mounts: every cell at its initial value. *)
Definition mounting (uid : option string) : Component :=
  {| userId := uid; background := ""; avatar := ""; name := ""; bio := "";
     username := ""; borderColor := ""; links := ∅;
     message := None; error := None; loading := true; saving := false |}.

(** A stored profile with no bio and one blank link. *)
Definition stored_alice : UserJson :=
  {| u_backgroundImage := "https://x.com/a.png"; u_image := "https://x.com/b.png";
     u_name := "Alice"; u_bio := None; u_username := "alice";
     u_borderColor := "#ffffff";
     u_links := Some {[ "website" := "https://alice.example"; "github" := "" ]} |}.

(** Read endpoints: one that answers every request alike, one that cannot
    be reached. *)
Definition profile_server (status : nat) (u : option UserJson) (m : option string) :
    string -> ProfileReply :=
  fun _ => ProfileResponse status (ProfileObject u m).
Definition profile_offline : string -> ProfileReply := fun _ => ProfileNetworkFailure.

(** The Settings page with [e] typed in the email box, a session, and
    servers for it. *)
Definition settings_page (e : string) : Settings.State :=
  {| Settings.email := Settings.units e; Settings.font := "sans-serif";
     Settings.title := ""; Settings.description := ""; Settings.loading := false |}.
Definition u1_session : Settings.Session := {| Settings.user_id := "u1" |}.
Definition settings_server (status : nat) (m : option string) :
    string -> string -> option Settings.Body -> Settings.Reply :=
  fun _ _ _ => Settings.Response status (Settings.Object None m).
Definition settings_offline : string -> string -> option Settings.Body -> Settings.Reply :=
  fun _ _ _ => Settings.Failure.

(** ** The loop over the links *)

Lemma clean_step_lookup (m : gmap string string) (a k : string) :
  clean_step m a !! k = if decide (a = k ∧ m !! k = Some "") then None else m !! k.
Proof.
  unfold clean_step.
  destruct (decide (a = k)) as [->|Hne].
  - destruct (decide (m !! k = Some "")) as [He|He].
    + rewrite lookup_delete_eq. rewrite decide_True; [done | by split].
    + rewrite decide_False; [done | by intros [_ ?]].
  - rewrite (decide_False (P := _ ∧ _)); [| by intros [? _]].
    case_decide; [by rewrite lookup_delete_ne | done].
Qed.

Lemma foldl_clean_step_lookup (ks : list string) (m : gmap string string) (k : string) :
  foldl clean_step m ks !! k = if decide (k ∈ ks ∧ m !! k = Some "") then None else m !! k.
Proof.
  revert m. induction ks as [|a ks IH]; intros m; cbn [foldl].
  - rewrite decide_False; [done |]. intros [Hin _]. by apply not_elem_of_nil in Hin.
  - rewrite IH, clean_step_lookup.
    destruct (decide (a = k ∧ m !! k = Some "")) as [[-> He]|Hn].
    + rewrite (decide_False (P := _ ∧ None = _)); [| by intros [_ ?]].
      rewrite decide_True; [done |]. split; [apply list_elem_of_here | done].
    + destruct (decide (k ∈ ks ∧ m !! k = Some "")) as [[Hin He]|Hn'].
      * rewrite decide_True; [done |]. split; [by apply list_elem_of_further | done].
      * rewrite decide_False; [done |]. intros [Hin He].
        apply elem_of_cons in Hin as [->|Hin]; [apply Hn | apply Hn']; done.
Qed.

Lemma elem_of_object_keys (m : gmap string string) (k : string) :
  k ∈ object_keys m ↔ is_Some (m !! k).
Proof.
  unfold object_keys. rewrite list_elem_of_fmap. split.
  - intros [[k' v] [-> Hin]]. apply elem_of_map_to_list in Hin. by exists v.
  - intros [v Hv]. exists (k, v). split; [done |]. by apply elem_of_map_to_list.
Qed.

(** The loop removes exactly the entries whose value is the empty string. *)
Lemma cleanLinks_lookup (m : gmap string string) (k : string) :
  cleanLinks m !! k = if decide (m !! k = Some "") then None else m !! k.
Proof.
  unfold cleanLinks. rewrite foldl_clean_step_lookup.
  destruct (decide (m !! k = Some "")) as [He|He].
  - rewrite decide_True; [done |]. split; [| done].
    apply elem_of_object_keys. by rewrite He.
  - rewrite decide_False; [done |]. by intros [_ ?].
Qed.

Lemma cleanLinks_no_empty (m : gmap string string) (k : string) :
  cleanLinks m !! k = Some "" -> False.
Proof.
  rewrite cleanLinks_lookup. case_decide; [done |]. intros He. done.
Qed.

Lemma cleanLinks_keeps (m : gmap string string) (k v : string) :
  m !! k = Some v -> v ≠ "" -> cleanLinks m !! k = Some v.
Proof.
  intros Hk Hv. rewrite cleanLinks_lookup, Hk.
  case_decide as He; [| done]. injection He as ->. done.
Qed.

Lemma cleanLinks_from (m : gmap string string) (k v : string) :
  cleanLinks m !! k = Some v -> m !! k = Some v ∧ v ≠ "".
Proof.
  rewrite cleanLinks_lookup. case_decide as He; [done |].
  intros Hk. split; [done |]. intros ->. done.
Qed.

(** ** The handler, case by case *)

Section Properties.

Variable isUrl : string -> bool.
Variable updateUser : string -> string -> Payload -> FetchReply.

Local Abbreviation result := (run isUrl updateUser).
Local Abbreviation issues := (object_issues isUrl profileSchema).

Ltac tidy :=
  cbn [comp events fst snd userId with_saving with_error with_message with_links
       links name bio background avatar borderColor app].

Ltac step_handler :=
  cbv [run handleSaveChanges bind setMessage setError setSaving record modify
       getComponent ret throw try_catch_finally parse fetch response_json
       clean_links_in_place console_error];
  tidy.

Lemma run_unauthenticated (c : Component) :
  js_not (userId c) = true ->
  result c = {| comp := with_saving false (with_error (Some "User not authenticated") (begun c));
             events := [CallSetMessage None; CallSetError None; CallSetSaving true;
                        CallSetError (Some "User not authenticated"); CallSetSaving false] |}.
Proof.
  intros H. step_handler. rewrite H. reflexivity.
Qed.

Lemma run_invalid (c : Component) (first : string) (rest : list string) :
  js_not (userId c) = false ->
  issues (cleaned_draft c) = first :: rest ->
  result c = {| comp := with_saving false (with_error (Some first) (cleaned c));
             events := [CallSetMessage None; CallSetError None; CallSetSaving true;
                        CallParse (cleaned_draft c); CallSetError (Some first);
                        CallSetSaving false] |}.
Proof.
  intros H Hi. unfold cleaned_draft in Hi. step_handler. rewrite H. tidy. rewrite Hi. reflexivity.
Qed.

Lemma run_submitted (c : Component) :
  js_not (userId c) = false ->
  issues (cleaned_draft c) = [] ->
  result c =
    {| comp := with_saving false
                 (settled (updateUser "/api/updateUser" "PUT" (request_body c)) (cleaned c));
       events := [CallSetMessage None; CallSetError None; CallSetSaving true;
                  CallParse (cleaned_draft c);
                  CallFetch "/api/updateUser" "PUT" (request_body c)]
                 ++ settling_calls (updateUser "/api/updateUser" "PUT" (request_body c))
                 ++ [CallSetSaving false] |}.
Proof.
  intros H Hi. unfold cleaned_draft in Hi. step_handler. rewrite H. tidy. rewrite Hi.
  unfold request_body.
  destruct (updateUser _ _ _) as [|status [|m]]; cbn [settled settling_calls fst snd];
    try reflexivity.
  destruct (response_ok status); reflexivity.
Qed.

(** Every exception is caught inside the handler: it always returns. *)
Lemma handleSaveChanges_returns (c : Component) :
  (handleSaveChanges isUrl updateUser {| comp := c; events := [] |}).1 = Returned tt.
Proof.
  step_handler. destruct (js_not (userId c)); [reflexivity |]. tidy.
  destruct (object_issues _ _ _) as [|first rest]; [| reflexivity].
  destruct (updateUser _ _ _) as [|status [|m]]; try reflexivity.
  cbn [fst snd]. destruct (response_ok status); reflexivity.
Qed.

(** ** The issues of [profileSchema] *)

Lemma name_issues (s : string) :
  string_issues isUrl (sch_name profileSchema) s =
    (if (String.length s <? 3)%nat
     then ["Name must be between 3 and 15 characters long"] else [])
    ++ (if (15 <? String.length s)%nat
        then ["Name must be between 3 and 15 characters long"] else [])
    ++ (if (String.length s <? 1)%nat then ["Name cannot be empty"] else []).
Proof. cbn. rewrite app_nil_r. reflexivity. Qed.

Lemma bio_issues (s : string) :
  string_issues isUrl (sch_bio profileSchema) s =
    if (200 <? String.length s)%nat then ["Bio must be 200 characters or fewer"] else [].
Proof. cbn. rewrite app_nil_r. reflexivity. Qed.

Lemma borderColor_issues (s : string) :
  string_issues isUrl (sch_borderColor profileSchema) s = [].
Proof. reflexivity. Qed.

Lemma link_value_issues (v : string) :
  string_issues isUrl (record_value (sch_links profileSchema)) v
    = if isUrl v then [] else ["Invalid URL"].
Proof. cbn. rewrite app_nil_r. reflexivity. Qed.

(** Every issue of the links record carries the same message. *)
Lemma links_issues_message (m : gmap string string) (x : string) :
  In x (record_issues isUrl (sch_links profileSchema) m) -> x = "Invalid URL".
Proof.
  unfold record_issues. rewrite in_concat. intros (l & Hl & Hx).
  apply in_map_iff in Hl as ([k v] & <- & _). rewrite link_value_issues in Hx.
  destruct (isUrl _); [destruct Hx | destruct Hx as [<-|[]]; reflexivity].
Qed.

Lemma links_issues_In (m : gmap string string) (k v : string) :
  m !! k = Some v -> isUrl v = false ->
  In "Invalid URL" (record_issues isUrl (sch_links profileSchema) m).
Proof.
  intros Hk Hv. unfold record_issues. rewrite in_concat.
  exists ["Invalid URL"]. split; [| by left].
  apply in_map_iff. exists (k, v). split.
  - rewrite link_value_issues. cbn. by rewrite Hv.
  - apply list_elem_of_In. by apply elem_of_map_to_list.
Qed.

Lemma links_issues_nil (m : gmap string string) :
  (forall k v, m !! k = Some v -> isUrl v = true) ->
  record_issues isUrl (sch_links profileSchema) m = [].
Proof.
  intros Hall. destruct (record_issues _ _ m) as [|x l] eqn:E; [done |].
  assert (In x (record_issues isUrl (sch_links profileSchema) m)) as Hx
    by (rewrite E; by left).
  unfold record_issues in Hx. rewrite in_concat in Hx. destruct Hx as (l' & Hl & Hx).
  apply in_map_iff in Hl as ([k v] & <- & Hin). rewrite link_value_issues in Hx.
  apply list_elem_of_In, elem_of_map_to_list in Hin. cbn in Hx.
  rewrite (Hall k v Hin) in Hx. destruct Hx.
Qed.

(** A non-empty list of issues of the links record starts with that message. *)
Lemma links_issues_head (m : gmap string string) (k v : string) :
  m !! k = Some v -> isUrl v = false ->
  exists rest, record_issues isUrl (sch_links profileSchema) m = "Invalid URL" :: rest.
Proof.
  intros Hk Hv. pose proof (links_issues_In m k v Hk Hv) as Hin.
  destruct (record_issues _ _ m) as [|x l] eqn:E; [destruct Hin |].
  exists l. f_equal. apply (links_issues_message m). rewrite E. by left.
Qed.

(** A name outside 3-15 characters puts the length message first. *)
Lemma issues_name_first (i : ProfileInput) :
  (String.length (in_name i) < 3 \/ 15 < String.length (in_name i))%nat ->
  exists rest, issues i = "Name must be between 3 and 15 characters long" :: rest.
Proof.
  intros Hlen. unfold object_issues. rewrite name_issues.
  destruct (String.length (in_name i) <? 3)%nat eqn:E3.
  - eexists. reflexivity.
  - destruct (15 <? String.length (in_name i))%nat eqn:E15.
    + eexists. reflexivity.
    + apply Nat.ltb_ge in E3, E15. lia.
Qed.

Lemma name_issues_nil (s : string) :
  (3 <= String.length s <= 15)%nat -> string_issues isUrl (sch_name profileSchema) s = [].
Proof.
  intros [H3 H15]. rewrite name_issues.
  rewrite (proj2 (Nat.ltb_ge _ _)) by lia.
  rewrite (proj2 (Nat.ltb_ge _ _)) by lia.
  rewrite (proj2 (Nat.ltb_ge _ _)) by lia. reflexivity.
Qed.

Lemma name_issues_nil_iff (s : string) :
  string_issues isUrl (sch_name profileSchema) s = [] <-> (3 <= String.length s <= 15)%nat.
Proof.
  rewrite name_issues.
  destruct (Nat.ltb_spec (String.length s) 3), (Nat.ltb_spec 15 (String.length s)),
    (Nat.ltb_spec (String.length s) 1); cbn; split; intros; try discriminate; try lia;
    reflexivity.
Qed.

Lemma bio_issues_nil_iff (s : string) :
  string_issues isUrl (sch_bio profileSchema) s = [] <-> (String.length s <= 200)%nat.
Proof.
  rewrite bio_issues.
  destruct (Nat.ltb_spec 200 (String.length s)); split; intros; try discriminate; try lia;
    reflexivity.
Qed.

Lemma background_issues (s : string) :
  string_issues isUrl (sch_background profileSchema) s =
    (if isUrl s then [] else ["Invalid background URL"])
    ++ (if (String.length s <? 1)%nat then ["Background URL cannot be empty"] else []).
Proof. cbn. rewrite app_nil_r. reflexivity. Qed.

Lemma avatar_issues (s : string) :
  string_issues isUrl (sch_avatar profileSchema) s =
    (if isUrl s then [] else ["Invalid avatar URL"])
    ++ (if (String.length s <? 1)%nat then ["Avatar URL cannot be empty"] else []).
Proof. cbn. rewrite app_nil_r. reflexivity. Qed.

Lemma background_issues_nil_iff (s : string) :
  string_issues isUrl (sch_background profileSchema) s = []
  <-> isUrl s = true /\ (1 <= String.length s)%nat.
Proof.
  rewrite background_issues.
  destruct (isUrl s), (Nat.ltb_spec (String.length s) 1); cbn;
    (split;
     [ first [discriminate | intros _; split; [reflexivity | lia]]
     | intros [Hu Hl]; first [discriminate | lia | reflexivity] ]).
Qed.

Lemma avatar_issues_nil_iff (s : string) :
  string_issues isUrl (sch_avatar profileSchema) s = []
  <-> isUrl s = true /\ (1 <= String.length s)%nat.
Proof.
  rewrite avatar_issues.
  destruct (isUrl s), (Nat.ltb_spec (String.length s) 1); cbn;
    (split;
     [ first [discriminate | intros _; split; [reflexivity | lia]]
     | intros [Hu Hl]; first [discriminate | lia | reflexivity] ]).
Qed.

Lemma cleaned_links_issues_nil_iff (m : gmap string string) :
  record_issues isUrl (sch_links profileSchema) (cleanLinks m) = []
  <-> (forall k v, m !! k = Some v -> v <> "" -> isUrl v = true).
Proof.
  split.
  - intros Hnil k v Hk Hv. destruct (isUrl v) eqn:E; [reflexivity |].
    pose proof (links_issues_In _ k v (cleanLinks_keeps _ _ _ Hk Hv) E) as Hin.
    rewrite Hnil in Hin. destruct Hin.
  - intros Hall. apply links_issues_nil. intros k v Hk.
    apply cleanLinks_from in Hk as [Hk Hv]. by apply (Hall k).
Qed.

(** The schema raises no issue exactly when every field meets its
    constraint, blank links apart. *)
Lemma valid_draft_iff (c : Component) :
  issues (cleaned_draft c) = []
  <-> (3 <= String.length (name c) <= 15)%nat
      /\ (String.length (bio c) <= 200)%nat
      /\ (isUrl (background c) = true /\ (1 <= String.length (background c))%nat)
      /\ (isUrl (avatar c) = true /\ (1 <= String.length (avatar c))%nat)
      /\ (forall k v, links c !! k = Some v -> v <> "" -> isUrl v = true).
Proof.
  unfold object_issues.
  cbn [cleaned_draft in_name in_bio in_background in_avatar in_borderColor in_links].
  rewrite borderColor_issues. cbn [app].
  rewrite <- name_issues_nil_iff, <- bio_issues_nil_iff, <- background_issues_nil_iff,
    <- avatar_issues_nil_iff, <- cleaned_links_issues_nil_iff.
  split.
  - intros H.
    apply app_eq_nil in H as [Hn H]. apply app_eq_nil in H as [Hb H].
    apply app_eq_nil in H as [Hg H]. apply app_eq_nil in H as [Ha Hl]. done.
  - intros (-> & -> & -> & -> & ->). reflexivity.
Qed.

(** ** Outcomes of a run *)

(** A draft that fails the schema is reported and not sent. *)
Lemma invalid_outcome (c : Component) (first : string) (rest : list string) :
  js_not (userId c) = false ->
  issues (cleaned_draft c) = first :: rest ->
  error (comp (result c)) = Some first
  /\ message (comp (result c)) = None
  /\ requests (result c) = []
  /\ links (comp (result c)) = cleanLinks (links c).
Proof.
  intros Hu Hi. rewrite (run_invalid c first rest Hu Hi). repeat split.
Qed.

(** A run never leaves both a message and an error. *)
Lemma never_both (c : Component) :
  message (comp (result c)) = None \/ error (comp (result c)) = None.
Proof.
  destruct (js_not (userId c)) eqn:Hu.
  - left. rewrite (run_unauthenticated c Hu). reflexivity.
  - destruct (issues (cleaned_draft c)) as [|first rest] eqn:Hi.
    + rewrite (run_submitted c Hu Hi).
      destruct (updateUser _ _ _) as [|status [|m]]; cbn; try (left; reflexivity).
      destruct (response_ok status); [right | left]; reflexivity.
    + left. rewrite (run_invalid c first rest Hu Hi). reflexivity.
Qed.

(** The first two calls of every run clear the message and the error. *)
Lemma clears_first (c : Component) :
  exists rest, events (result c) = CallSetMessage None :: CallSetError None :: rest.
Proof.
  destruct (js_not (userId c)) eqn:Hu.
  - rewrite (run_unauthenticated c Hu). eexists. reflexivity.
  - destruct (issues (cleaned_draft c)) as [|first rest] eqn:Hi.
    + rewrite (run_submitted c Hu Hi). eexists. reflexivity.
    + rewrite (run_invalid c first rest Hu Hi). eexists. reflexivity.
Qed.

(** A valid draft is sent once, with [request_body] as its body. *)
Lemma valid_draft_sent_once (c : Component) :
  js_not (userId c) = false ->
  issues (cleaned_draft c) = [] ->
  requests (result c) = [request_body c]
  /\ parses (result c) = [cleaned_draft c]
  /\ links (comp (result c)) = cleanLinks (links c).
Proof.
  intros Hu Hi. rewrite (run_submitted c Hu Hi).
  destruct (updateUser _ _ _) as [|status [|m]]; cbn; try (repeat split; reflexivity).
  destruct (response_ok status); repeat split; reflexivity.
Qed.

(** After a good name and bio, a background that is no URL is what is
    reported; after a good background, an avatar that is no URL. *)
Lemma background_rejected_after_bio (c : Component) :
  js_not (userId c) = false ->
  string_issues isUrl (sch_name profileSchema) (name c) = [] ->
  string_issues isUrl (sch_bio profileSchema) (bio c) = [] ->
  isUrl (background c) = false ->
  error (comp (result c)) = Some "Invalid background URL".
Proof.
  intros Hu Hn Hb Hg.
  assert (exists rest, issues (cleaned_draft c) = "Invalid background URL" :: rest)
    as [rest Hi].
  { unfold object_issues. cbn [cleaned_draft in_name in_bio in_background].
    rewrite Hn, Hb, background_issues, Hg. eexists. reflexivity. }
  apply (invalid_outcome c _ _ Hu Hi).
Qed.

Lemma avatar_rejected_after_background (c : Component) :
  js_not (userId c) = false ->
  string_issues isUrl (sch_name profileSchema) (name c) = [] ->
  string_issues isUrl (sch_bio profileSchema) (bio c) = [] ->
  string_issues isUrl (sch_background profileSchema) (background c) = [] ->
  isUrl (avatar c) = false ->
  error (comp (result c)) = Some "Invalid avatar URL".
Proof.
  intros Hu Hn Hb Hg Ha.
  assert (exists rest, issues (cleaned_draft c) = "Invalid avatar URL" :: rest)
    as [rest Hi].
  { unfold object_issues. cbn [cleaned_draft in_name in_bio in_background in_avatar].
    rewrite Hn, Hb, Hg, avatar_issues, Ha. eexists. reflexivity. }
  apply (invalid_outcome c _ _ Hu Hi).
Qed.

(** ** The claims *)

(** C1 (evaluated where it fails): a draft whose name is the empty string
    violates the non-empty check, and the schema does raise "Name cannot be
    empty" for it, but only as its second issue; the error the handler
    reports is the first one, the name-length message. *)
Theorem empty_name_reports_length_message
    (b bg av bc : string) (l : gmap string string) (m e : option string) :
  exists rest,
    issues (cleaned_draft (form (Some "u1") "" b bg av bc l m e))
      = "Name must be between 3 and 15 characters long" :: "Name cannot be empty" :: rest
    /\ error (comp (result (form (Some "u1") "" b bg av bc l m e)))
      = Some "Name must be between 3 and 15 characters long".
Proof.
  set (c := form (Some "u1") "" b bg av bc l m e).
  assert (exists rest, issues (cleaned_draft c)
    = "Name must be between 3 and 15 characters long" :: "Name cannot be empty" :: rest)
    as [rest Hi].
  { unfold object_issues. rewrite name_issues. cbn. eexists. reflexivity. }
  exists rest. split; [exact Hi |].
  apply (invalid_outcome c _ _ eq_refl Hi).
Qed.

(** C2: when no user identifier is available (the handler's [!userId]
    holds), the run ends with the error "User not authenticated" and no
    message, the schema is never run, no request is issued, and the links
    are left as they were. *)
Theorem unauthenticated_short_circuits (c : Component) :
  js_not (userId c) = true ->
  error (comp (result c)) = Some "User not authenticated"
  /\ message (comp (result c)) = None
  /\ parses (result c) = []
  /\ requests (result c) = []
  /\ links (comp (result c)) = links c.
Proof.
  intros Hu. rewrite (run_unauthenticated c Hu). repeat split.
Qed.

(** C3 (amended): for every valid draft whose bio is the empty string, one
    request is sent and its [newBio] field is null. *)
Theorem empty_bio_sent_as_null (c : Component) :
  js_not (userId c) = false ->
  issues (cleaned_draft c) = [] ->
  bio c = "" ->
  map newBio (requests (result c)) = [None].
Proof.
  intros Hu Hi Hb. destruct (valid_draft_sent_once c Hu Hi) as (-> & _).
  cbn. rewrite Hb. reflexivity.
Qed.

(** C4 (amended): the schema is run on the cleaned links; an entry whose
    value is the empty string is absent from them (and from the links the
    component keeps); when every non-empty value is a URL the links raise
    no issue, whatever was blank; and an entry with a non-empty value that
    is no URL makes validation fail, with "Invalid URL" among the issues,
    nothing sent and no message set - the reported error being "Invalid
    URL" as soon as name, bio, background and avatar pass their checks. *)
Theorem blank_links_dropped_bad_links_rejected (c : Component) (k v : string) :
  js_not (userId c) = false ->
  links c !! k = Some v ->
  map in_links (parses (result c)) = [cleanLinks (links c)]
  /\ (v = "" ->
       cleanLinks (links c) !! k = None /\ links (comp (result c)) !! k = None)
  /\ ((forall k' v', links c !! k' = Some v' -> v' <> "" -> isUrl v' = true) ->
       record_issues isUrl (sch_links profileSchema) (cleanLinks (links c)) = [])
  /\ (v <> "" -> isUrl v = false ->
       In "Invalid URL" (issues (cleaned_draft c))
       /\ (exists first rest,
             issues (cleaned_draft c) = first :: rest
             /\ error (comp (result c)) = Some first)
       /\ message (comp (result c)) = None
       /\ requests (result c) = []
       /\ (string_issues isUrl (sch_name profileSchema) (name c) = [] ->
            string_issues isUrl (sch_bio profileSchema) (bio c) = [] ->
            string_issues isUrl (sch_background profileSchema) (background c) = [] ->
            string_issues isUrl (sch_avatar profileSchema) (avatar c) = [] ->
            error (comp (result c)) = Some "Invalid URL")).
Proof.
  intros Hu Hk.
  assert (links (comp (result c)) = cleanLinks (links c)
          /\ parses (result c) = [cleaned_draft c]) as [Hl Hp].
  { destruct (issues (cleaned_draft c)) as [|first rest] eqn:Hi.
    - destruct (valid_draft_sent_once c Hu Hi) as (_ & ? & ?). by split.
    - rewrite (run_invalid c first rest Hu Hi). by split. }
  split; [by rewrite Hp |]. split; [| split].
  - intros ->. rewrite Hl, cleanLinks_lookup, Hk. by rewrite decide_True.
  - intros Hall. apply links_issues_nil. intros k' v' Hk'.
    apply cleanLinks_from in Hk' as [Hk' Hv']. by apply (Hall k').
  - intros Hv Hbad.
    pose proof (cleanLinks_keeps _ _ _ Hk Hv) as Hkept.
    assert (In "Invalid URL" (issues (cleaned_draft c))) as Hin.
    { unfold object_issues. repeat (apply in_or_app; right).
      apply (links_issues_In _ k v); done. }
    destruct (issues (cleaned_draft c)) as [|first rest] eqn:Hi; [destruct Hin |].
    destruct (invalid_outcome c first rest Hu Hi) as (He & Hm & Hr & _).
    split; [exact Hin |]. split; [by exists first, rest |].
    split; [exact Hm |]. split; [exact Hr |].
    intros Hn Hb Hg Ha. rewrite He. f_equal.
    unfold object_issues in Hi. cbn [cleaned_draft in_name in_bio in_background in_avatar
      in_borderColor in_links] in Hi.
    rewrite Hn, Hb, Hg, Ha, borderColor_issues in Hi. cbn [app] in Hi.
    destruct (links_issues_head _ k v Hkept Hbad) as [rest' Hh].
    rewrite Hh in Hi. by injection Hi as -> _.
Qed.

(** C5: for the draft {name:"Alice", bio:"", backgroundUrl:
    "https://x.com/a.png", avatarUrl:"https://x.com/b.png",
    links:{website:""}} of a signed-in user, on a runtime whose URL parser
    accepts the two URLs, the schema raises no issue, the cleaned links are
    empty, and the one request sent has [newBio] null (and empty
    [newLinks]). *)
Theorem alice_saved_with_null_bio (uid bc : string) (m e : option string) :
  uid <> "" ->
  isUrl "https://x.com/a.png" = true ->
  isUrl "https://x.com/b.png" = true ->
  issues (cleaned_draft (alice_form uid bc m e)) = []
  /\ links (comp (result (alice_form uid bc m e))) = ∅
  /\ requests (result (alice_form uid bc m e))
     = [ {| p_userId := uid; newName := "Alice"; newImage := "https://x.com/b.png";
            newBio := None; newBackgroundImage := "https://x.com/a.png";
            newBorderColor := bc; newLinks := ∅ |} ].
Proof.
  intros Huid Ha Hb.
  assert (js_not (userId (alice_form uid bc m e)) = false) as Hu.
  { cbn. by rewrite decide_False. }
  assert (cleanLinks (links (alice_form uid bc m e)) = ∅) as Hl.
  { apply map_eq. intros k. rewrite cleanLinks_lookup, lookup_empty.
    case_decide as Hd; [done |]. cbn in *.
    destruct (decide (k = "website")) as [->|Hne].
    - rewrite lookup_singleton_eq in Hd. done.
    - by rewrite lookup_singleton_ne. }
  assert (issues (cleaned_draft (alice_form uid bc m e)) = []) as Hi.
  { unfold object_issues, cleaned_draft. rewrite Hl. cbn. rewrite Ha, Hb. reflexivity. }
  destruct (valid_draft_sent_once _ Hu Hi) as (Hr & _ & Hl').
  split; [exact Hi |]. split; [by rewrite Hl', Hl |].
  rewrite Hr. unfold request_body. rewrite Hl. reflexivity.
Qed.

(** C6 (amended): for every draft whose name has between 3 and 15
    characters and whose bio has more than 200, the reported error is the
    bio-length message, whatever the background URL, the avatar URL and the
    links are; nothing is sent and no message is set. *)
Theorem long_bio_rejected_after_name (c : Component) :
  js_not (userId c) = false ->
  (3 <= String.length (name c) <= 15)%nat ->
  (200 < String.length (bio c))%nat ->
  error (comp (result c)) = Some "Bio must be 200 characters or fewer"
  /\ message (comp (result c)) = None
  /\ requests (result c) = [].
Proof.
  intros Hu Hn Hb.
  assert (exists rest, issues (cleaned_draft c)
            = "Bio must be 200 characters or fewer" :: rest) as [rest Hi].
  { unfold object_issues. cbn [cleaned_draft in_name in_bio].
    rewrite (name_issues_nil _ Hn), bio_issues.
    rewrite (proj2 (Nat.ltb_lt _ _) Hb). eexists. reflexivity. }
  destruct (invalid_outcome c _ _ Hu Hi) as (? & ? & ? & _). done.
Qed.

(** C7: for every draft whose name has fewer than 3 or more than 15
    characters, the reported error is the name-length message (whatever the
    other fields are); nothing is sent and no message is set. *)
Theorem name_length_rejected (c : Component) :
  js_not (userId c) = false ->
  (String.length (name c) < 3 \/ 15 < String.length (name c))%nat ->
  error (comp (result c)) = Some "Name must be between 3 and 15 characters long"
  /\ message (comp (result c)) = None
  /\ requests (result c) = [].
Proof.
  intros Hu Hn.
  destruct (issues_name_first (cleaned_draft c) Hn) as [rest Hi].
  destruct (invalid_outcome c _ _ Hu Hi) as (? & ? & ? & _). done.
Qed.

(** C8: when a valid draft is sent and the endpoint answers with a
    non-success status and a JSON body that carries a message, the error
    shown is "Error: " followed by that message, and no message is set. *)
Theorem server_error_is_prefixed (c : Component) (status : nat) (msg : string) :
  js_not (userId c) = false ->
  issues (cleaned_draft c) = [] ->
  updateUser "/api/updateUser" "PUT" (request_body c)
    = HttpResponse status (BodyObject (Some msg)) ->
  response_ok status = false ->
  error (comp (result c)) = Some (String.append "Error: " msg)
  /\ message (comp (result c)) = None.
Proof.
  intros Hu Hi Hr Hs. rewrite (run_submitted c Hu Hi), Hr. cbn. rewrite Hs. by split.
Qed.

(** C9 (amended): every run starts by clearing the message and then the
    error, and never ends with both set.  A successful submission - a
    valid draft of a signed-in user answered with a success status and a
    JSON body - leaves the error null and stores the [message] of the
    body, whatever it is; every other run - nobody signed in, a draft that
    fails the schema, a rejected request, a body that is no JSON, a
    non-success status - leaves the message null and sets an error.  So
    exactly one of the two is set unless a success reply carries no
    message, and then neither is. *)
Theorem at_most_one_outcome (c : Component) :
  (exists rest, events (result c) = CallSetMessage None :: CallSetError None :: rest)
  /\ (message (comp (result c)) = None \/ error (comp (result c)) = None)
  /\ (forall status m,
        js_not (userId c) = false ->
        issues (cleaned_draft c) = [] ->
        updateUser "/api/updateUser" "PUT" (request_body c)
          = HttpResponse status (BodyObject m) ->
        response_ok status = true ->
        message (comp (result c)) = m /\ error (comp (result c)) = None)
  /\ (js_not (userId c) = true
      \/ (exists first rest, issues (cleaned_draft c) = first :: rest)
      \/ updateUser "/api/updateUser" "PUT" (request_body c) = NetworkFailure
      \/ (exists status,
            updateUser "/api/updateUser" "PUT" (request_body c)
              = HttpResponse status BodyNotJson)
      \/ (exists status m,
            updateUser "/api/updateUser" "PUT" (request_body c)
              = HttpResponse status (BodyObject m)
            /\ response_ok status = false) ->
      message (comp (result c)) = None /\ is_Some (error (comp (result c)))).
Proof.
  split; [apply clears_first |]. split; [apply never_both |]. split.
  - intros status m Hu Hi Hr Hs. rewrite (run_submitted c Hu Hi), Hr.
    cbn. rewrite Hs. by split.
  - intros Hfail. destruct (js_not (userId c)) eqn:Hu.
    { rewrite (run_unauthenticated c Hu). by split. }
    destruct (issues (cleaned_draft c)) as [|first rest] eqn:Hi.
    2: { rewrite (run_invalid c first rest Hu Hi). by split. }
    rewrite (run_submitted c Hu Hi).
    destruct Hfail as [Hf | [(first & rest & Hf) | [Hf | [[status Hf] | (status & m & Hf & Hs)]]]];
      try discriminate; rewrite Hf; cbn; rewrite ?Hs; by split.
Qed.

(** C10: for every draft that fails the schema, no request is issued, no
    message is set, and the error reported is the first issue's message. *)
Theorem invalid_draft_is_not_sent (c : Component) (first : string) (rest : list string) :
  js_not (userId c) = false ->
  issues (cleaned_draft c) = first :: rest ->
  requests (result c) = []
  /\ message (comp (result c)) = None
  /\ error (comp (result c)) = Some first.
Proof.
  intros Hu Hi. destruct (invalid_outcome c first rest Hu Hi) as (? & ? & ? & _). done.
Qed.

End Properties.

(** ** The claims on sample drafts *)

(** A blank name on the sample runtime: the error shown is the name-length
    message. *)
Example blank_name_sample :
  error (comp (run http_url (answering 200 "saved")
                 (form (Some "u1") "" "" "https://x.com/a.png" "https://x.com/b.png"
                       "#ffffff" ∅ None None)))
    = Some "Name must be between 3 and 15 characters long".
Proof. vm_compute. reflexivity. Qed.

(** C2 on [guest]. *)
Lemma unauthenticated_short_circuits_guest :
  js_not (userId guest) = true
  /\ error (comp (run http_url (answering 200 "saved") guest)) = Some "User not authenticated"
  /\ message (comp (run http_url (answering 200 "saved") guest)) = None
  /\ parses (run http_url (answering 200 "saved") guest) = []
  /\ requests (run http_url (answering 200 "saved") guest) = []
  /\ links (comp (run http_url (answering 200 "saved") guest)) = links guest.
Proof.
  split; [reflexivity |].
  apply (unauthenticated_short_circuits http_url (answering 200 "saved") guest).
  reflexivity.
Defined.

(** C3 fails as stated: [alice] is valid and has a blank bio, and the
    request sent for her carries a null [newBio], not the text "no bio". *)
Lemma blank_bio_not_sent_as_no_bio :
  object_issues http_url profileSchema (cleaned_draft alice) = []
  /\ bio alice = ""
  /\ map newBio (requests (run http_url (answering 200 "saved") alice)) = [None]
  /\ (In (Some "no bio") (map newBio (requests (run http_url (answering 200 "saved") alice)))
      -> False).
Proof.
  split; [vm_compute; reflexivity |]. split; [reflexivity |].
  split; [vm_compute; reflexivity |].
  intros H. vm_compute in H. destruct H as [H|[]]. discriminate H.
Qed.

(** C3 (amended) on [alice]. *)
Lemma empty_bio_sent_as_null_alice :
  js_not (userId alice) = false
  /\ object_issues http_url profileSchema (cleaned_draft alice) = []
  /\ bio alice = ""
  /\ map newBio (requests (run http_url (answering 200 "saved") alice)) = [None].
Proof.
  assert (object_issues http_url profileSchema (cleaned_draft alice) = []) as Hi
    by (vm_compute; reflexivity).
  split; [reflexivity |]. split; [exact Hi |]. split; [reflexivity |].
  exact (empty_bio_sent_as_null http_url (answering 200 "saved") alice
           eq_refl Hi eq_refl).
Defined.

(** C4 fails as stated: [al_bad_link] has a link that is not blank and is
    no URL, and the error reported for it is about the name, not about a
    URL. *)
Lemma bad_link_hidden_by_short_name :
  links al_bad_link !! "github" = Some "not a url"
  /\ http_url "not a url" = false
  /\ error (comp (run http_url (answering 200 "saved") al_bad_link))
     = Some "Name must be between 3 and 15 characters long".
Proof.
  split; [vm_compute; reflexivity |]. split; vm_compute; reflexivity.
Qed.

(** C4 (amended) on [alice_bad_link]: the blank link is dropped and the
    other one is reported. *)
Lemma blank_links_dropped_bad_links_rejected_alice :
  js_not (userId alice_bad_link) = false
  /\ links alice_bad_link !! "website" = Some ""
  /\ links alice_bad_link !! "github" = Some "not a url"
  /\ links (comp (run http_url (answering 200 "saved") alice_bad_link)) !! "website" = None
  /\ error (comp (run http_url (answering 200 "saved") alice_bad_link)) = Some "Invalid URL".
Proof.
  assert (links alice_bad_link !! "website" = Some "") as Hw by (vm_compute; reflexivity).
  assert (links alice_bad_link !! "github" = Some "not a url") as Hg
    by (vm_compute; reflexivity).
  split; [reflexivity |]. split; [exact Hw |]. split; [exact Hg |]. split.
  - destruct (blank_links_dropped_bad_links_rejected http_url (answering 200 "saved")
                alice_bad_link "website" "" eq_refl Hw) as (_ & Hdrop & _).
    apply (Hdrop eq_refl).
  - destruct (blank_links_dropped_bad_links_rejected http_url (answering 200 "saved")
                alice_bad_link "github" "not a url" eq_refl Hg) as (_ & _ & _ & Hbad).
    apply Hbad; [discriminate | reflexivity | vm_compute; reflexivity ..].
Defined.

(** C5 for user "u1" on the sample runtime. *)
Lemma alice_saved_with_null_bio_u1 :
  "u1" <> ""
  /\ http_url "https://x.com/a.png" = true
  /\ http_url "https://x.com/b.png" = true
  /\ object_issues http_url profileSchema (cleaned_draft alice) = []
  /\ links (comp (run http_url (answering 200 "saved") alice)) = ∅
  /\ requests (run http_url (answering 200 "saved") alice)
     = [ {| p_userId := "u1"; newName := "Alice"; newImage := "https://x.com/b.png";
            newBio := None; newBackgroundImage := "https://x.com/a.png";
            newBorderColor := "#ffffff"; newLinks := ∅ |} ].
Proof.
  assert ("u1" <> "") as Hu by discriminate.
  split; [exact Hu |]. split; [reflexivity |]. split; [reflexivity |].
  exact (alice_saved_with_null_bio http_url (answering 200 "saved") "u1" "#ffffff"
           None None Hu eq_refl eq_refl).
Defined.

(** C6 fails as stated: [al_verbose] has a bio of 201 characters and the
    error reported for it is about the name. *)
Lemma long_bio_hidden_by_short_name :
  (200 <? String.length (bio al_verbose))%nat = true
  /\ error (comp (run http_url (answering 200 "saved") al_verbose))
     = Some "Name must be between 3 and 15 characters long".
Proof. split; vm_compute; reflexivity. Qed.

(** C6 (amended) on [alice_verbose]. *)
Lemma long_bio_rejected_after_name_alice :
  js_not (userId alice_verbose) = false
  /\ (3 <= String.length (name alice_verbose) <= 15)%nat
  /\ (200 < String.length (bio alice_verbose))%nat
  /\ error (comp (run http_url (answering 200 "saved") alice_verbose))
     = Some "Bio must be 200 characters or fewer"
  /\ message (comp (run http_url (answering 200 "saved") alice_verbose)) = None
  /\ requests (run http_url (answering 200 "saved") alice_verbose) = [].
Proof.
  assert (3 <= String.length (name alice_verbose) <= 15)%nat as Hn by (cbn; lia).
  assert (200 < String.length (bio alice_verbose))%nat as Hb
    by (apply Nat.ltb_lt; vm_compute; reflexivity).
  split; [reflexivity |]. split; [exact Hn |]. split; [exact Hb |].
  exact (long_bio_rejected_after_name http_url (answering 200 "saved") alice_verbose
           eq_refl Hn Hb).
Defined.

(** C7 on [al], whose name has 2 characters. *)
Lemma name_length_rejected_al :
  js_not (userId al) = false
  /\ (String.length (name al) < 3 \/ 15 < String.length (name al))%nat
  /\ error (comp (run http_url (answering 200 "saved") al))
     = Some "Name must be between 3 and 15 characters long"
  /\ message (comp (run http_url (answering 200 "saved") al)) = None
  /\ requests (run http_url (answering 200 "saved") al) = [].
Proof.
  assert (String.length (name al) < 3 \/ 15 < String.length (name al))%nat as Hn
    by (left; cbn; lia).
  split; [reflexivity |]. split; [exact Hn |].
  exact (name_length_rejected http_url (answering 200 "saved") al eq_refl Hn).
Defined.

(** C8 on [alice] with an endpoint that answers 500 and "db error". *)
Lemma server_error_is_prefixed_db_error :
  js_not (userId alice) = false
  /\ object_issues http_url profileSchema (cleaned_draft alice) = []
  /\ response_ok 500 = false
  /\ error (comp (run http_url (answering 500 "db error") alice)) = Some "Error: db error"
  /\ message (comp (run http_url (answering 500 "db error") alice)) = None.
Proof.
  assert (object_issues http_url profileSchema (cleaned_draft alice) = []) as Hi
    by (vm_compute; reflexivity).
  split; [reflexivity |]. split; [exact Hi |]. split; [reflexivity |].
  exact (server_error_is_prefixed http_url (answering 500 "db error") alice 500 "db error"
           eq_refl Hi eq_refl eq_refl).
Defined.

(** C9 fails as stated: [alice] is valid and signed in, her request is
    sent and answered with status 200 and a JSON body without a message,
    and the run ends with neither a message nor an error. *)
Lemma success_without_message_sets_neither :
  requests (run http_url (answering_without_message 200) alice) = [request_body alice]
  /\ answering_without_message 200 "/api/updateUser" "PUT" (request_body alice)
     = HttpResponse 200 (BodyObject None)
  /\ response_ok 200 = true
  /\ message (comp (run http_url (answering_without_message 200) alice)) = None
  /\ error (comp (run http_url (answering_without_message 200) alice)) = None.
Proof.
  split; [vm_compute; reflexivity |]. split; [reflexivity |]. split; [reflexivity |].
  split; vm_compute; reflexivity.
Qed.

(** C9 (amended) on [alice_again], who still sees the message and the
    error of an earlier save: answered with 200 and "saved" she is left
    with that message and no error, answered with 500 and "db error" with
    an error and no message. *)
Lemma at_most_one_outcome_alice_again :
  (message (comp (run http_url (answering 200 "saved") alice_again)) = Some "saved"
   /\ error (comp (run http_url (answering 200 "saved") alice_again)) = None)
  /\ (message (comp (run http_url (answering 500 "db error") alice_again)) = None
      /\ is_Some (error (comp (run http_url (answering 500 "db error") alice_again)))).
Proof.
  assert (object_issues http_url profileSchema (cleaned_draft alice_again) = []) as Hi
    by (vm_compute; reflexivity).
  split.
  - destruct (at_most_one_outcome http_url (answering 200 "saved") alice_again)
      as (_ & _ & Hok & _).
    exact (Hok 200%nat (Some "saved") eq_refl Hi eq_refl eq_refl).
  - destruct (at_most_one_outcome http_url (answering 500 "db error") alice_again)
      as (_ & _ & _ & Hfail).
    apply Hfail. right. right. right. right.
    exists 500%nat, (Some "db error"). split; reflexivity.
Defined.

(** C10 on [al]. *)
Lemma invalid_draft_is_not_sent_al :
  js_not (userId al) = false
  /\ object_issues http_url profileSchema (cleaned_draft al)
     = ["Name must be between 3 and 15 characters long"]
  /\ requests (run http_url (answering 200 "saved") al) = []
  /\ message (comp (run http_url (answering 200 "saved") al)) = None
  /\ error (comp (run http_url (answering 200 "saved") al))
     = Some "Name must be between 3 and 15 characters long".
Proof.
  assert (object_issues http_url profileSchema (cleaned_draft al)
          = ["Name must be between 3 and 15 characters long"]) as Hi
    by (vm_compute; reflexivity).
  split; [reflexivity |]. split; [exact Hi |].
  exact (invalid_draft_is_not_sent http_url (answering 200 "saved") al _ _ eq_refl Hi).
Defined.

(** ** More on the save flow *)

Lemma cleanLinks_is_filter (m : gmap string string) :
  cleanLinks m = filter (fun kv => kv.2 <> "") m.
Proof.
  apply map_eq. intros k. rewrite cleanLinks_lookup.
  destruct (m !! k) as [v|] eqn:Hk.
  - destruct (decide (Some v = Some "")) as [He|He].
    + injection He as ->. symmetry. apply map_lookup_filter_None. right.
      intros v' Hv'. rewrite Hk in Hv'. injection Hv' as <-. cbn. auto.
    + symmetry. apply map_lookup_filter_Some. split; [done |]. cbn. congruence.
  - rewrite decide_False by discriminate. symmetry.
    apply map_lookup_filter_None. by left.
Qed.

Lemma cleanLinks_idempotent (m : gmap string string) :
  cleanLinks (cleanLinks m) = cleanLinks m.
Proof.
  apply map_eq. intros k. rewrite cleanLinks_lookup.
  case_decide as He; [| done]. by apply cleanLinks_no_empty in He.
Qed.

Section MoreOfTheSaveFlow.

Variable isUrl : string -> bool.
Variable updateUser : string -> string -> Payload -> FetchReply.

Local Abbreviation result := (run isUrl updateUser).
Local Abbreviation issues := (object_issues isUrl profileSchema).
Local Abbreviation reply_to c := (updateUser "/api/updateUser" "PUT" (request_body c)).

(** The three ways a run can go. *)
Ltac by_cases c :=
  let Hu := fresh "Hu" in
  let Hi := fresh "Hi" in
  destruct (js_not (userId c)) eqn:Hu;
  [ rewrite (run_unauthenticated isUrl updateUser c Hu)
  | destruct (issues (cleaned_draft c)) as [|first rest] eqn:Hi;
    [ rewrite (run_submitted isUrl updateUser c Hu Hi)
    | rewrite (run_invalid isUrl updateUser c first rest Hu Hi) ] ].

Lemma issues_are_schema_messages (i : ProfileInput) (x : string) :
  In x (issues i) -> In x schema_messages.
Proof.
  unfold object_issues. rewrite !in_app_iff.
  rewrite name_issues, bio_issues, background_issues, avatar_issues, borderColor_issues.
  rewrite !in_app_iff.
  assert (forall l : list string,
            (forall y, In y l -> In y schema_messages) -> In x l -> In x schema_messages)
    as Hsub by auto.
  intros [H|[H|[H|[H|[H|H]]]]].
  - destruct H as [H|[H|H]]; revert H; destruct (_ <? _)%nat; apply Hsub; cbn; tauto.
  - revert H; destruct (_ <? _)%nat; apply Hsub; cbn; tauto.
  - destruct H as [H|H]; revert H; [destruct (isUrl _) | destruct (_ <? _)%nat];
      apply Hsub; cbn; tauto.
  - destruct H as [H|H]; revert H; [destruct (isUrl _) | destruct (_ <? _)%nat];
      apply Hsub; cbn; tauto.
  - destruct H.
  - apply links_issues_message in H as ->. cbn. tauto.
Qed.

Lemma schema_messages_not_blank (x : string) : In x schema_messages -> x <> "".
Proof.
  cbn. intros H. repeat (destruct H as [<-|H]; [discriminate |]). destruct H.
Qed.

(** X1: whatever happens during a run - nobody signed in, a draft that
    fails the schema, a reply of any kind, a rejected request - the run
    ends with [saving] false, so the button reads "Save Changes" again,
    and the last call made is [setSaving(false)]. *)
Theorem save_always_ends_not_saving (c : Component) :
  saving (comp (result c)) = false
  /\ button_label (comp (result c)) = "Save Changes"
  /\ last (events (result c)) = Some (CallSetSaving false).
Proof.
  by_cases c.
  - repeat split.
  - destruct (reply_to c) as [|status [|m]]; cbn; try (repeat split; reflexivity).
    destruct (response_ok status); repeat split.
  - repeat split.
Qed.

Lemma link_input_cleaned (m : gmap string string) (key : string) :
  js_or (cleanLinks m !! key) "" = js_or (m !! key) "".
Proof.
  rewrite cleanLinks_lookup. case_decide as He; [| done]. rewrite He. reflexivity.
Qed.

(** X2: a run never changes what the form shows in its inputs: the name,
    the bio, the two URLs, the border colour and every link input keep
    their values (the blank links the loop deletes were shown as empty
    inputs already), and the user, the username and [loading] are left
    alone. *)
Theorem save_keeps_the_inputs (c : Component) :
  name (comp (result c)) = name c
  /\ bio (comp (result c)) = bio c
  /\ background (comp (result c)) = background c
  /\ avatar (comp (result c)) = avatar c
  /\ borderColor (comp (result c)) = borderColor c
  /\ (forall key, link_input key (comp (result c)) = link_input key c)
  /\ userId (comp (result c)) = userId c
  /\ username (comp (result c)) = username c
  /\ loading (comp (result c)) = loading c.
Proof.
  by_cases c.
  - repeat split.
  - destruct (reply_to c) as [|status [|m]]; cbn;
      [| | destruct (response_ok status)];
      repeat split; intros key; apply link_input_cleaned.
  - repeat split. intros key. apply link_input_cleaned.
Qed.

(** X3: a run issues at most one request, never retrying; it issues one,
    with [request_body] as its body, exactly when a user is signed in and
    the draft meets every constraint of the schema. *)
Theorem request_sent_iff_signed_in_and_valid (c : Component) :
  (requests (result c) = [request_body c] \/ requests (result c) = [])
  /\ (requests (result c) = [request_body c]
      <-> js_not (userId c) = false
          /\ (3 <= String.length (name c) <= 15)%nat
          /\ (String.length (bio c) <= 200)%nat
          /\ (isUrl (background c) = true /\ (1 <= String.length (background c))%nat)
          /\ (isUrl (avatar c) = true /\ (1 <= String.length (avatar c))%nat)
          /\ (forall k v, links c !! k = Some v -> v <> "" -> isUrl v = true)).
Proof.
  rewrite <- valid_draft_iff.
  destruct (js_not (userId c)) eqn:Hu.
  - rewrite (run_unauthenticated isUrl updateUser c Hu). cbn.
    split; [by right |]. split; [discriminate | intros [? _]; discriminate].
  - destruct (issues (cleaned_draft c)) as [|first rest] eqn:Hi.
    + destruct (valid_draft_sent_once isUrl updateUser c Hu Hi) as (-> & _).
      split; [by left |]. split; done.
    + rewrite (run_invalid isUrl updateUser c first rest Hu Hi). cbn.
      split; [by right |]. split; [discriminate | intros [_ ?]; discriminate].
Qed.

(** X4: when the request of a valid draft is rejected, or is answered with
    a body that is no JSON (whatever the status), the run logs to the
    console once and reports "An unexpected error occurred"; no message is
    set and the request is not repeated. *)
Theorem transport_failure_reported (c : Component) :
  js_not (userId c) = false ->
  issues (cleaned_draft c) = [] ->
  (reply_to c = NetworkFailure \/ exists status, reply_to c = HttpResponse status BodyNotJson) ->
  error (comp (result c)) = Some "An unexpected error occurred"
  /\ message (comp (result c)) = None
  /\ requests (result c) = [request_body c]
  /\ console_errors (result c) = 1%nat.
Proof.
  intros Hu Hi Hr. rewrite (run_submitted isUrl updateUser c Hu Hi).
  destruct Hr as [-> | [status ->]]; repeat split.
Qed.

(** X5: when the endpoint answers the request of a valid draft with a
    success status and a JSON body, the message stored is exactly the
    [message] of that body and the error stays null; nothing is logged. *)
Theorem success_stores_server_message (c : Component) (status : nat) (m : option string) :
  js_not (userId c) = false ->
  issues (cleaned_draft c) = [] ->
  reply_to c = HttpResponse status (BodyObject m) ->
  response_ok status = true ->
  message (comp (result c)) = m
  /\ error (comp (result c)) = None
  /\ console_errors (result c) = 0%nat.
Proof.
  intros Hu Hi Hr Hs. rewrite (run_submitted isUrl updateUser c Hu Hi), Hr.
  cbn. rewrite Hs. repeat split.
Qed.

(** X6: when the endpoint answers with a non-success status and a JSON
    body that has no [message], the error shown is the text "Error:
    undefined". *)
Theorem error_reply_without_message (c : Component) (status : nat) :
  js_not (userId c) = false ->
  issues (cleaned_draft c) = [] ->
  reply_to c = HttpResponse status (BodyObject None) ->
  response_ok status = false ->
  error (comp (result c)) = Some "Error: undefined"
  /\ message (comp (result c)) = None.
Proof.
  intros Hu Hi Hr Hs. rewrite (run_submitted isUrl updateUser c Hu Hi), Hr.
  cbn. rewrite Hs. repeat split.
Qed.

Lemma cleaned_draft_after (c1 c2 : Component) :
  name c1 = name c2 -> bio c1 = bio c2 -> background c1 = background c2 ->
  avatar c1 = avatar c2 -> borderColor c1 = borderColor c2 ->
  links c1 = cleanLinks (links c2) ->
  cleaned_draft c1 = cleaned_draft c2.
Proof.
  intros Hn Hb Hg Ha Hc Hl. unfold cleaned_draft.
  rewrite Hn, Hb, Hg, Ha, Hc, Hl, cleanLinks_idempotent. reflexivity.
Qed.

Lemma request_body_after (c1 c2 : Component) :
  userId c1 = userId c2 ->
  name c1 = name c2 -> bio c1 = bio c2 -> background c1 = background c2 ->
  avatar c1 = avatar c2 -> borderColor c1 = borderColor c2 ->
  links c1 = cleanLinks (links c2) ->
  request_body c1 = request_body c2.
Proof.
  intros Hu Hn Hb Hg Ha Hc Hl. unfold request_body.
  rewrite Hu, Hn, Hb, Hg, Ha, Hc, Hl, cleanLinks_idempotent. reflexivity.
Qed.

(** X7: saving twice in a row (the endpoint answering as before) leaves
    the component exactly as saving once does, and the second run sends
    the same request as the first: the links deleted by the first run are
    the only trace it leaves on the draft. *)
Theorem saving_again_changes_nothing (c : Component) :
  comp (result (comp (result c))) = comp (result c)
  /\ requests (result (comp (result c))) = requests (result c).
Proof.
  destruct (js_not (userId c)) eqn:Hu.
  - rewrite (run_unauthenticated isUrl updateUser c Hu). cbn [comp].
    set (c1 := with_saving false (with_error (Some "User not authenticated") (begun c))).
    assert (js_not (userId c1) = true) as Hu1 by exact Hu.
    rewrite (run_unauthenticated isUrl updateUser c1 Hu1). split; reflexivity.
  - destruct (issues (cleaned_draft c)) as [|first rest] eqn:Hi.
    + rewrite (run_submitted isUrl updateUser c Hu Hi).
      set (c1 := with_saving false (settled (reply_to c) (cleaned c))).
      assert (userId c1 = userId c /\ name c1 = name c /\ bio c1 = bio c
              /\ background c1 = background c /\ avatar c1 = avatar c
              /\ borderColor c1 = borderColor c
              /\ links c1 = cleanLinks (links c)) as (Eu & En & Eb & Eg & Ea & Ec & El).
      { unfold c1. destruct (reply_to c) as [|status [|m]]; cbn;
          [| | destruct (response_ok status)]; repeat split. }
      assert (cleaned_draft c1 = cleaned_draft c) as Ed by (by apply cleaned_draft_after).
      assert (request_body c1 = request_body c) as Er by (by apply request_body_after).
      assert (js_not (userId c1) = false) as Hu1 by (by rewrite Eu).
      assert (issues (cleaned_draft c1) = []) as Hi1 by (by rewrite Ed).
      cbn [comp]. rewrite (run_submitted isUrl updateUser c1 Hu1 Hi1), Er. cbn [comp].
      split.
      * unfold cleaned, begun. rewrite El, cleanLinks_idempotent.
        unfold c1. destruct (reply_to c) as [|status [|m]]; cbn;
          [| | destruct (response_ok status)]; reflexivity.
      * destruct (reply_to c) as [|status [|m]]; cbn;
          [| | destruct (response_ok status)]; reflexivity.
    + rewrite (run_invalid isUrl updateUser c first rest Hu Hi).
      set (c1 := with_saving false (with_error (Some first) (cleaned c))).
      assert (cleaned_draft c1 = cleaned_draft c) as Ed
        by (apply cleaned_draft_after; reflexivity).
      assert (issues (cleaned_draft c1) = first :: rest) as Hi1 by (by rewrite Ed).
      assert (js_not (userId c1) = false) as Hu1 by exact Hu.
      cbn [comp]. rewrite (run_invalid isUrl updateUser c1 first rest Hu1 Hi1). cbn [comp].
      split; [| reflexivity].
      unfold c1, cleaned, begun. cbn. rewrite cleanLinks_idempotent. reflexivity.
Qed.

(** X8: every error a run stores is a non-empty text, so the error box is
    rendered with it; and a run never leaves both boxes on the page. *)
Theorem stored_error_is_rendered (c : Component) :
  error_box (comp (result c)) = error (comp (result c))
  /\ (error_box (comp (result c)) = None \/ message_box (comp (result c)) = None).
Proof.
  split.
  - unfold error_box. by_cases c; cbn [comp error with_saving with_error].
    + reflexivity.
    + destruct (reply_to c) as [|status [|m]]; cbn; try reflexivity.
      destruct (response_ok status); reflexivity.
    + assert (first <> "") as Hne.
      { apply schema_messages_not_blank, (issues_are_schema_messages (cleaned_draft c)).
        rewrite Hi. by left. }
      cbn. by rewrite decide_False.
  - unfold error_box, message_box.
    destruct (never_both isUrl updateUser c) as [-> | ->]; [right | left]; reflexivity.
Qed.

End MoreOfTheSaveFlow.

(** ** The loop and the link inputs *)

(** X9: the loop over the links only deletes (what it leaves is part of
    what it found), and running it again deletes nothing more. *)
Theorem cleanLinks_shrinks_once (m : gmap string string) :
  cleanLinks m ⊆ m /\ cleanLinks (cleanLinks m) = cleanLinks m.
Proof.
  split; [| apply cleanLinks_idempotent].
  rewrite cleanLinks_is_filter. apply map_filter_subseteq.
Qed.

(** X10: the loop leaves the links object untouched exactly when no link
    is blank. *)
Theorem cleanLinks_fixes_iff_no_blank (m : gmap string string) :
  cleanLinks m = m <-> (forall k, m !! k = Some "" -> False).
Proof.
  split.
  - intros He k Hk. rewrite <- He in Hk. by apply cleanLinks_no_empty in Hk.
  - intros Hnone. apply map_eq. intros k. rewrite cleanLinks_lookup.
    case_decide as He; [| done]. destruct (Hnone k He).
Qed.

(** X11: after [handleLinkChange key value] the input of [key] shows
    [value] and the other link inputs show what they showed; at the next
    save the entry of [key] is sent as [value], or not at all when
    [value] is blank, the other entries being sent as before. *)
Theorem link_change_then_clean (key value : string) (c : Component) :
  link_input key (handleLinkChange key value c) = value
  /\ (forall k, k <> key -> link_input k (handleLinkChange key value c) = link_input k c)
  /\ cleanLinks (links (handleLinkChange key value c)) !! key
     = (if decide (value = "") then None else Some value)
  /\ (forall k, k <> key ->
        cleanLinks (links (handleLinkChange key value c)) !! k = cleanLinks (links c) !! k).
Proof.
  unfold link_input, handleLinkChange. cbn [links with_links].
  split; [| split; [| split]].
  - rewrite lookup_insert_eq. cbn. case_decide; [done | reflexivity].
  - intros k Hk. by rewrite lookup_insert_ne.
  - rewrite cleanLinks_lookup, lookup_insert_eq.
    destruct (decide (value = "")) as [->|Hv].
    + by rewrite decide_True.
    + rewrite decide_False; [done |]. intros [= ?]. done.
  - intros k Hk. rewrite !cleanLinks_lookup. by rewrite lookup_insert_ne.
Qed.

(** ** Loading the profile *)

Section LoadProperties.

Variable getUserProfile : string -> ProfileReply.

Local Abbreviation after_load := (loaded getUserProfile).

Ltac step_load :=
  cbv [loaded fetchUserProfile fetch_profile profile_json eff_bind eff_get eff_ret
       eff_throw eff_call eff_set eff_try_catch_finally eff_try_catch];
  cbn [fst snd app].

Lemma loaded_usable (c : Component) (u : UserJson) :
  js_not (userId c) = false ->
  usable (getUserProfile (profile_url c)) = Some u ->
  after_load c = (with_loading false (with_profile u c), [CallGet (profile_url c)]).
Proof.
  intros Hu Hr. step_load. rewrite Hu. unfold profile_url in Hr.
  destruct (getUserProfile _) as [|status [|[u'|] m]]; cbn in Hr; try discriminate.
  cbn [fst snd app]. destruct (response_ok status); [| discriminate].
  injection Hr as ->. reflexivity.
Qed.

Lemma loaded_refusal (c : Component) (m : option string) :
  js_not (userId c) = false ->
  refusal (getUserProfile (profile_url c)) = Some m ->
  after_load c = (with_loading false (with_error m c), [CallGet (profile_url c)]).
Proof.
  intros Hu Hr. step_load. rewrite Hu. unfold profile_url in Hr.
  destruct (getUserProfile _) as [|status [|u' m']]; cbn in Hr; try discriminate.
  cbn [fst snd app]. destruct (response_ok status); [discriminate |].
  injection Hr as ->. reflexivity.
Qed.

Lemma loaded_unexpected (c : Component) :
  js_not (userId c) = false ->
  usable (getUserProfile (profile_url c)) = None ->
  refusal (getUserProfile (profile_url c)) = None ->
  after_load c
  = (with_loading false (with_error (Some "An unexpected error occurred") c),
     [CallGet (profile_url c); CallLogError]).
Proof.
  intros Hu Hr Hf. step_load. rewrite Hu. unfold profile_url in Hr, Hf.
  destruct (getUserProfile _) as [|status [|[u'|] m']]; cbn in Hr, Hf;
    cbn [fst snd app]; try reflexivity;
    destruct (response_ok status); try discriminate; reflexivity.
Qed.

(** X12: with nobody signed in the effect does nothing at all: no request
    is made and the component is left as it is, so a spinner that was
    showing keeps showing. *)
Theorem load_without_user_does_nothing (c : Component) :
  js_not (userId c) = true ->
  after_load c = (c, [])
  /\ shows_spinner (after_load c).1 = shows_spinner c.
Proof.
  intros Hu. assert (after_load c = (c, [])) as ->; [| by split].
  step_load. rewrite Hu. reflexivity.
Qed.

(** X13: with a user signed in the effect reads the profile exactly once,
    from the address that carries the user's identifier, and whatever the
    outcome it ends with [loading] false; it never touches the message,
    [saving] or the user. *)
Theorem load_reads_once_and_stops_spinner (c : Component) :
  js_not (userId c) = false ->
  gets (after_load c).2 = [profile_url c]
  /\ shows_spinner (after_load c).1 = false
  /\ message (after_load c).1 = message c
  /\ saving (after_load c).1 = saving c
  /\ userId (after_load c).1 = userId c.
Proof.
  intros Hu.
  destruct (usable (getUserProfile (profile_url c))) as [u|] eqn:Hr.
  - rewrite (loaded_usable c u Hu Hr). repeat split.
  - destruct (refusal (getUserProfile (profile_url c))) as [m|] eqn:Hf.
    + rewrite (loaded_refusal c m Hu Hf). repeat split.
    + rewrite (loaded_unexpected c Hu Hr Hf). repeat split.
Qed.

(** X14: a success reply with a user fills the form from it: a bio that is
    null or missing becomes the empty text and missing links become the
    empty object; nothing is logged, and an error shown before the load
    is still there. *)
Theorem load_fills_the_form (c : Component) (status : nat) (u : UserJson)
    (m : option string) :
  js_not (userId c) = false ->
  getUserProfile (profile_url c) = ProfileResponse status (ProfileObject (Some u) m) ->
  response_ok status = true ->
  name (after_load c).1 = u_name u
  /\ bio (after_load c).1 = default "" (u_bio u)
  /\ background (after_load c).1 = u_backgroundImage u
  /\ avatar (after_load c).1 = u_image u
  /\ username (after_load c).1 = u_username u
  /\ borderColor (after_load c).1 = u_borderColor u
  /\ links (after_load c).1 = default ∅ (u_links u)
  /\ error (after_load c).1 = error c
  /\ load_errors (after_load c).2 = 0%nat.
Proof.
  intros Hu Hg Hs.
  assert (usable (getUserProfile (profile_url c)) = Some u) as Hr
    by (rewrite Hg; cbn; by rewrite Hs).
  rewrite (loaded_usable c u Hu Hr). cbn.
  repeat split. destruct (u_bio u) as [b|]; cbn; [| reflexivity].
  case_decide; [done | reflexivity].
Qed.

(** X15: a reply with a non-success status and a JSON body leaves the
    draft as it was and stores the [message] of the body as the error,
    verbatim (null when the body has none); nothing is logged. *)
Theorem load_refused_keeps_draft (c : Component) (status : nat) (u : option UserJson)
    (m : option string) :
  js_not (userId c) = false ->
  getUserProfile (profile_url c) = ProfileResponse status (ProfileObject u m) ->
  response_ok status = false ->
  error (after_load c).1 = m
  /\ cleaned_draft (after_load c).1 = cleaned_draft c
  /\ links (after_load c).1 = links c
  /\ username (after_load c).1 = username c
  /\ load_errors (after_load c).2 = 0%nat.
Proof.
  intros Hu Hg Hs.
  assert (refusal (getUserProfile (profile_url c)) = Some m) as Hf
    by (rewrite Hg; cbn; by rewrite Hs).
  rewrite (loaded_refusal c m Hu Hf). repeat split.
Qed.

(** X16: in every other case - the request is rejected, the body is no
    JSON, or a success reply has no [user] - the draft is left as it was,
    the failure is logged once and the error reads "An unexpected error
    occurred". *)
Theorem load_failure_keeps_draft (c : Component) :
  js_not (userId c) = false ->
  (getUserProfile (profile_url c) = ProfileNetworkFailure
   \/ (exists status, getUserProfile (profile_url c) = ProfileResponse status ProfileNotJson)
   \/ (exists status m,
         getUserProfile (profile_url c) = ProfileResponse status (ProfileObject None m)
         /\ response_ok status = true)) ->
  error (after_load c).1 = Some "An unexpected error occurred"
  /\ cleaned_draft (after_load c).1 = cleaned_draft c
  /\ links (after_load c).1 = links c
  /\ username (after_load c).1 = username c
  /\ load_errors (after_load c).2 = 1%nat.
Proof.
  intros Hu Hg.
  assert (usable (getUserProfile (profile_url c)) = None
          /\ refusal (getUserProfile (profile_url c)) = None) as [Hr Hf].
  { destruct Hg as [-> | [[status ->] | (status & m & -> & Hs)]]; cbn;
      rewrite ?Hs; by split. }
  rewrite (loaded_unexpected c Hu Hr Hf). repeat split.
Qed.

Variable isUrl : string -> bool.
Variable updateUser : string -> string -> Payload -> FetchReply.


End LoadProperties.

(** ** The email pattern of the Settings page *)

Lemma plus_loop_spec (excluded : N -> bool) (rest : list N -> bool) (s : list N) :
  Settings.plus_loop excluded rest s = true
  <-> exists u r, s = u ++ r /\ u <> [] /\ Forall (fun x => excluded x = false) u
                  /\ rest r = true.
Proof.
  induction s as [|x s IH]; cbn [Settings.plus_loop].
  - split; [discriminate |]. intros (u & r & Hs & Hu & _).
    destruct u; [done | discriminate].
  - rewrite andb_true_iff, negb_true_iff, orb_true_iff, IH. split.
    + intros [Hx [(u & r & -> & Hu & Hall & Hr) | Hr]].
      * exists (x :: u), r. repeat split; [discriminate | by constructor | done].
      * exists [x], s. repeat split; [discriminate | by repeat constructor | done].
    + intros (u & r & Hs & Hu & Hall & Hr).
      destruct u as [|y u]; [done |]. injection Hs as -> ->.
      inversion Hall as [|? ? Hy Hall']; subst. split; [done |].
      destruct u as [|z u]; [by right |]. left.
      exists (z :: u), r. repeat split; [discriminate | done | done].
Qed.

Lemma search_anchored_later (p : list Settings.Atom) (s : list N) :
  Settings.search (Settings.AtStart :: p) false s = false.
Proof. induction s as [|x s IH]; cbn; [reflexivity | exact IH]. Qed.

Lemma test_anchored (p : list Settings.Atom) (s : list N) :
  Settings.test (Settings.AtStart :: p) s = Settings.match_here p true s.
Proof.
  unfold Settings.test. destruct s as [|x s]; cbn [Settings.search Settings.match_here andb].
  - apply orb_false_r.
  - rewrite search_anchored_later. apply orb_false_r.
Qed.

Lemma space_or_at_false (x : N) :
  Settings.space_or_at x = false <-> Settings.is_space x = false /\ x <> 64%N.
Proof.
  unfold Settings.space_or_at. rewrite orb_false_iff, N.eqb_neq. reflexivity.
Qed.

(** The three parts of a text the pattern accepts. *)
Lemma emailRegex_parts (s : list N) :
  Settings.test Settings.emailRegex s = true ->
  exists u v w,
    s = u ++ [64%N] ++ v ++ [46%N] ++ w
    /\ u <> [] /\ v <> [] /\ w <> []
    /\ Forall (fun x => Settings.is_space x = false /\ x <> 64%N) (u ++ v ++ w).
Proof.
  unfold Settings.emailRegex. rewrite test_anchored.
  cbn [Settings.match_here]. rewrite plus_loop_spec.
  intros (u & r & -> & Hu & Hall_u & Hr).
  destruct r as [|a r]; [discriminate |].
  apply andb_true_iff in Hr as [Ha Hr]. apply N.eqb_eq in Ha as ->.
  apply plus_loop_spec in Hr as (v & r' & -> & Hv & Hall_v & Hr).
  destruct r' as [|d r']; [discriminate |].
  apply andb_true_iff in Hr as [Hd Hr]. apply N.eqb_eq in Hd as ->.
  apply plus_loop_spec in Hr as (w & r'' & -> & Hw & Hall_w & Hr).
  destruct r'' as [|]; [| discriminate].
  exists u, v, w. rewrite app_nil_r. repeat split; try done.
  rewrite !Forall_app. repeat split;
    (eapply Forall_impl; [eassumption |]); intros x; apply space_or_at_false.
Qed.

(** X18: the pattern accepts exactly the texts of the shape
    [u @ v . w] where [u], [v] and [w] are non-empty and contain neither
    white space nor an at sign. *)
Theorem emailRegex_accepts_iff (s : list N) :
  Settings.test Settings.emailRegex s = true
  <-> exists u v w,
        s = u ++ [64%N] ++ v ++ [46%N] ++ w
        /\ u <> [] /\ v <> [] /\ w <> []
        /\ Forall (fun x => Settings.is_space x = false /\ x <> 64%N) (u ++ v ++ w).
Proof.
  split; [apply emailRegex_parts |].
  unfold Settings.emailRegex. rewrite test_anchored.
  cbn [Settings.match_here]. rewrite plus_loop_spec.
  intros (u & v & w & -> & Hu & Hv & Hw & Hall).
  apply Forall_app in Hall as [Hall_u Hall]. apply Forall_app in Hall as [Hall_v Hall_w].
  exists u, ([64%N] ++ v ++ [46%N] ++ w). repeat split; [done | |].
  { eapply Forall_impl; [exact Hall_u |]. intros x; apply space_or_at_false. }
  cbn [app]. rewrite N.eqb_refl. cbn [andb]. apply plus_loop_spec.
  exists v, ([46%N] ++ w). repeat split; [done | |].
  { eapply Forall_impl; [exact Hall_v |]. intros x; apply space_or_at_false. }
  cbn [app]. rewrite N.eqb_refl. cbn [andb]. apply plus_loop_spec.
  exists w, []. rewrite app_nil_r. repeat split; [done |].
  eapply Forall_impl; [exact Hall_w |]. intros x; apply space_or_at_false.
Qed.

(** X19: a text the pattern accepts has exactly one at sign, no white
    space anywhere, and at least five code units. *)
Theorem emailRegex_accepted_shape (s : list N) :
  Settings.test Settings.emailRegex s = true ->
  count_occ N.eq_dec s 64%N = 1%nat
  /\ Forall (fun x => Settings.is_space x = false) s
  /\ (5 <= length s)%nat.
Proof.
  intros H. apply emailRegex_parts in H as (u & v & w & -> & Hu & Hv & Hw & Hall).
  apply Forall_app in Hall as [Hall_u Hall]. apply Forall_app in Hall as [Hall_v Hall_w].
  assert (forall l, Forall (fun x => Settings.is_space x = false /\ x <> 64%N) l ->
                    count_occ N.eq_dec l 64%N = 0%nat) as Hnone.
  { intros l Hl. apply count_occ_not_In. intros Hin.
    apply (proj1 (List.Forall_forall _ _) Hl) in Hin as [_ Hne]. done. }
  split; [| split].
  - rewrite !count_occ_app, (Hnone u Hall_u), (Hnone v Hall_v), (Hnone w Hall_w).
    reflexivity.
  - rewrite !Forall_app. repeat split;
      try (eapply Forall_impl; [eassumption |]; by intros x [? _]);
      by repeat constructor.
  - rewrite !length_app. cbn [length].
    destruct u; [done |]. destruct v; [done |]. destruct w; [done |]. cbn [length]. lia.
Qed.

(** ** The handlers of the Settings page *)

Section SettingsProperties.

Variable session : option Settings.Session.
Variable server : string -> string -> option Settings.Body -> Settings.Reply.
Variable signOut_resolves : bool.

Local Abbreviation after_update s := (Settings.after (Settings.updateEmail session server) s).
Local Abbreviation after_delete s :=
  (Settings.after (Settings.deleteUser session server signOut_resolves) s).
Local Abbreviation after_fetch s :=
  (Settings.after (Settings.fetchUserProfile session server) s).

Ltac tidy := cbn [fst snd app negb].

Ltac step_settings :=
  cbv [Settings.after Settings.updateEmail Settings.deleteUser Settings.fetchUserProfile
       Settings.fetch Settings.response_json Settings.signOut
       eff_bind eff_get eff_ret eff_throw eff_call eff_set eff_try_catch];
  cbn [fst snd app].

(** X20: [updateEmail] never changes the state of the page, and it makes
    a request - one, carrying the identifier of the session's user and the
    email as typed - exactly when there is a session and the email passes
    the pattern. *)
Theorem update_email_request_iff (s : Settings.State) :
  (after_update s).1 = s
  /\ Settings.fetches (after_update s).2
     = match session with
       | Some sess =>
           if Settings.test Settings.emailRegex (Settings.email s)
           then [email_request sess s] else []
       | None => []
       end.
Proof.
  step_settings. destruct session as [sess|]; [| by split].
  destruct (Settings.test _ _); cbn [negb fst snd app]; [| by split].
  destruct (server _ _ _) as [|status [|e m]]; cbn [fst snd app];
    try (by split); destruct (response_ok status); by split.
Qed.

(** X21: with a session, an email the pattern rejects is announced to the
    user and logged, and that is all: nothing is sent. *)
Theorem invalid_email_is_announced (sess : Settings.Session) (s : Settings.State) :
  session = Some sess ->
  Settings.test Settings.emailRegex (Settings.email s) = false ->
  after_update s
  = (s, [Settings.CallConsoleError "Invalid email format";
         Settings.CallAlert "Please enter a valid email address"]).
Proof.
  intros Hs Ht. step_settings. rewrite Hs. tidy. rewrite Ht. reflexivity.
Qed.

(** X22: when the request of [updateEmail] is answered, a success status
    with a JSON body makes the alert show the [message] of the body (the
    text "undefined" when it has none), and any other status makes it show
    "Failed to update email" whatever the body is. *)
Theorem update_email_feedback (sess : Settings.Session) (s : Settings.State)
    (status : nat) (body : Settings.Json) :
  session = Some sess ->
  Settings.test Settings.emailRegex (Settings.email s) = true ->
  server "/api/updateSettings" "PUT"
         (Some (Settings.EmailBody (Settings.user_id sess) (Settings.email s)))
    = Settings.Response status body ->
  Settings.alerts (after_update s).2
  = if response_ok status then
      match body with
      | Settings.Object _ m => [template_text m]
      | Settings.NotJson => []
      end
    else ["Failed to update email"].
Proof.
  intros Hs Ht Hr. step_settings. rewrite Hs. tidy. rewrite Ht. tidy. rewrite Hr. tidy.
  destruct (response_ok status); [destruct body |]; reflexivity.
Qed.

(** X23: [updateEmail] fails silently - it logs to the console and shows
    no alert - when there is no session, when the request is rejected,
    and when a success reply has a body that is no JSON. *)
Theorem update_email_silent_failures (s : Settings.State) :
  (session = None
   \/ exists sess,
        session = Some sess
        /\ Settings.test Settings.emailRegex (Settings.email s) = true
        /\ (server "/api/updateSettings" "PUT"
                   (Some (Settings.EmailBody (Settings.user_id sess) (Settings.email s)))
             = Settings.Failure
            \/ exists status,
                 server "/api/updateSettings" "PUT"
                        (Some (Settings.EmailBody (Settings.user_id sess) (Settings.email s)))
                 = Settings.Response status Settings.NotJson
                 /\ response_ok status = true)) ->
  Settings.alerts (after_update s).2 = []
  /\ exists text, last (after_update s).2 = Some (Settings.CallConsoleError text).
Proof.
  intros [Hs | (sess & Hs & Ht & [Hr | (status & Hr & Hok)])]; step_settings; rewrite Hs; tidy.
  - split; [reflexivity | by eexists].
  - rewrite Ht. tidy. rewrite Hr. split; [reflexivity | by eexists].
  - rewrite Ht. tidy. rewrite Hr. tidy. rewrite Hok.
    split; [reflexivity | by eexists].
Qed.

(** X24: without a session [deleteUser] sets [loading] and never clears
    it again: the Delete button stays disabled, although nothing was
    requested and the user was told nothing. *)
Theorem delete_without_session_stays_loading (s : Settings.State) :
  session = None ->
  after_delete s
  = (Settings.with_loading true s,
     [Settings.CallConsoleError "User is not authenticated"]).
Proof.
  intros Hs. step_settings. rewrite Hs. tidy. reflexivity.
Qed.

(** X25: with a session [deleteUser] makes one request, and it signs the
    user out (towards "/") exactly when that request is answered with a
    success status; the body of the reply is never looked at. *)
Theorem sign_out_iff_deletion_confirmed (sess : Settings.Session) (s : Settings.State) :
  session = Some sess ->
  Settings.fetches (after_delete s).2 = [delete_request sess]
  /\ Settings.signOuts (after_delete s).2
     = match server "/api/updateSettings" "DELETE"
                    (Some (Settings.DeleteBody (Settings.user_id sess))) with
       | Settings.Response status _ => if response_ok status then ["/"] else []
       | Settings.Failure => []
       end.
Proof.
  intros Hs. step_settings. rewrite Hs. tidy.
  destruct (server _ _ _) as [|status body]; cbn [fst snd app]; [by split |].
  destruct (response_ok status); [destruct signOut_resolves |]; by split.
Qed.

(** X26: when the deletion is confirmed, [loading] stays set and nothing
    is shown if the sign-out goes through; if the sign-out fails, the user
    is shown "Error deleting account" and [loading] is cleared, although
    the account is gone. *)
Theorem delete_confirmed_outcome (sess : Settings.Session) (s : Settings.State)
    (status : nat) (body : Settings.Json) :
  session = Some sess ->
  server "/api/updateSettings" "DELETE" (Some (Settings.DeleteBody (Settings.user_id sess)))
    = Settings.Response status body ->
  response_ok status = true ->
  Settings.loading (after_delete s).1 = signOut_resolves
  /\ Settings.alerts (after_delete s).2
     = (if signOut_resolves then [] else ["Error deleting account"]).
Proof.
  intros Hs Hr Hok. step_settings. rewrite Hs. tidy. rewrite Hr. tidy. rewrite Hok.
  destruct signOut_resolves; by split.
Qed.

(** X27: when the deletion is not confirmed, the user is not signed out,
    [loading] is cleared, and one alert is shown: "Error deleting account"
    if the request was rejected, "Failed to delete account" if it was
    answered with a non-success status. *)
Theorem delete_not_confirmed_outcome (sess : Settings.Session) (s : Settings.State) :
  session = Some sess ->
  (server "/api/updateSettings" "DELETE" (Some (Settings.DeleteBody (Settings.user_id sess)))
     = Settings.Failure
   \/ exists status body,
        server "/api/updateSettings" "DELETE"
               (Some (Settings.DeleteBody (Settings.user_id sess)))
        = Settings.Response status body
        /\ response_ok status = false) ->
  (after_delete s).1 = Settings.with_loading false s
  /\ Settings.signOuts (after_delete s).2 = []
  /\ Settings.alerts (after_delete s).2
     = [match server "/api/updateSettings" "DELETE"
                     (Some (Settings.DeleteBody (Settings.user_id sess))) with
        | Settings.Failure => "Error deleting account"
        | Settings.Response _ _ => "Failed to delete account"
        end].
Proof.
  intros Hs [Hr | (status & body & Hr & Hok)]; step_settings; rewrite Hs; tidy; rewrite Hr; tidy.
  - repeat split.
  - rewrite Hok. repeat split.
Qed.

(** X28: the effect that loads the Settings page never shows an alert and
    never touches anything but the email; and it replaces the email only
    by the email of the [user] of a success reply to its request. *)
Theorem settings_load_only_sets_email (s : Settings.State) :
  Settings.alerts (after_fetch s).2 = []
  /\ (after_fetch s).1 = Settings.with_email (Settings.email (after_fetch s).1) s
  /\ (Settings.email (after_fetch s).1 = Settings.email s
      \/ exists status e m,
           js_not (Settings.userId session) = false
           /\ server (String.append "/api/getUserProfile?userId="
                                    (default "" (Settings.userId session))) "GET" None
              = Settings.Response status (Settings.Object (Some e) m)
           /\ response_ok status = true
           /\ Settings.email (after_fetch s).1 = e).
Proof.
  step_settings. destruct (js_not _) eqn:Hu; [destruct s; repeat split; by left |].
  destruct (server _ _ _) as [|status [|[e|] m]] eqn:Hr; cbn [fst snd app];
    try (destruct s; repeat split; by left).
  - destruct (response_ok status) eqn:Hok; cbn [fst snd app].
    + split; [reflexivity |]. split; [reflexivity |]. right. by exists status, e, m.
    + destruct s; repeat split; by left.
  - destruct (response_ok status); destruct s; repeat split; by left.
Qed.

(** X29: no exception escapes a handler of the Settings page: each of
    them returns, whatever the session, the server and the sign-out do. *)
Theorem settings_handlers_return (s : Settings.State) :
  (Settings.updateEmail session server (s, [])).1 = Returned tt
  /\ (Settings.deleteUser session server signOut_resolves (s, [])).1 = Returned tt
  /\ (Settings.fetchUserProfile session server (s, [])).1 = Returned tt.
Proof.
  split; [| split]; step_settings.
  - destruct session as [sess|]; [| reflexivity]. tidy.
    destruct (Settings.test _ _); tidy; [| reflexivity].
    destruct (server _ _ _) as [|status [|e m]]; tidy; try reflexivity;
      destruct (response_ok status); reflexivity.
  - destruct session as [sess|]; [| reflexivity]. tidy.
    destruct (server _ _ _) as [|status body]; tidy; [reflexivity |].
    destruct (response_ok status); [destruct signOut_resolves |]; reflexivity.
  - destruct (js_not _); [reflexivity |].
    destruct (server _ _ _) as [|status [|[e|] m]]; tidy; try reflexivity;
      destruct (response_ok status); reflexivity.
Qed.

End SettingsProperties.

(** ** The further properties on sample environments *)

(** X4 on [alice] with an endpoint that cannot be reached. *)
Lemma transport_failure_reported_alice :
  unreachable "/api/updateUser" "PUT" (request_body alice) = NetworkFailure
  /\ error (comp (run http_url unreachable alice)) = Some "An unexpected error occurred"
  /\ message (comp (run http_url unreachable alice)) = None
  /\ requests (run http_url unreachable alice) = [request_body alice]
  /\ console_errors (run http_url unreachable alice) = 1%nat.
Proof.
  split; [reflexivity |].
  apply (transport_failure_reported http_url unreachable alice);
    [reflexivity | vm_compute; reflexivity | left; reflexivity].
Defined.

(** X5 on [alice_again] with an endpoint that answers 200 and "saved". *)
Lemma success_stores_server_message_alice :
  response_ok 200 = true
  /\ message (comp (run http_url (answering 200 "saved") alice_again)) = Some "saved"
  /\ error (comp (run http_url (answering 200 "saved") alice_again)) = None
  /\ console_errors (run http_url (answering 200 "saved") alice_again) = 0%nat.
Proof.
  split; [reflexivity |].
  apply (success_stores_server_message http_url (answering 200 "saved") alice_again 200
           (Some "saved"));
    [reflexivity | vm_compute; reflexivity | reflexivity | reflexivity].
Defined.

(** X6 on [alice] with an endpoint that answers 500 and an empty object. *)
Lemma error_reply_without_message_alice :
  response_ok 500 = false
  /\ error (comp (run http_url (answering_without_message 500) alice))
     = Some "Error: undefined"
  /\ message (comp (run http_url (answering_without_message 500) alice)) = None.
Proof.
  split; [reflexivity |].
  apply (error_reply_without_message http_url (answering_without_message 500) alice 500);
    [reflexivity | vm_compute; reflexivity | reflexivity | reflexivity].
Defined.

(** X12 on the component as it mounts with nobody signed in. *)
Lemma load_without_user_does_nothing_mounting :
  js_not (userId (mounting None)) = true
  /\ loaded profile_offline (mounting None) = (mounting None, [])
  /\ shows_spinner (loaded profile_offline (mounting None)).1 = true.
Proof.
  split; [reflexivity |].
  apply (load_without_user_does_nothing profile_offline (mounting None)). reflexivity.
Defined.

(** X13 on the component as it mounts for user "u1", the endpoint being
    out of reach. *)
Lemma load_reads_once_and_stops_spinner_u1 :
  js_not (userId (mounting (Some "u1"))) = false
  /\ gets (loaded profile_offline (mounting (Some "u1"))).2
     = ["/api/getUserProfile?userId=u1"]
  /\ shows_spinner (loaded profile_offline (mounting (Some "u1"))).1 = false
  /\ message (loaded profile_offline (mounting (Some "u1"))).1 = None
  /\ saving (loaded profile_offline (mounting (Some "u1"))).1 = false
  /\ userId (loaded profile_offline (mounting (Some "u1"))).1 = Some "u1".
Proof.
  split; [reflexivity |].
  apply (load_reads_once_and_stops_spinner profile_offline (mounting (Some "u1"))).
  reflexivity.
Defined.

(** X14 on [stored_alice], whose bio is null. *)
Lemma load_fills_the_form_alice :
  response_ok 200 = true
  /\ name (loaded (profile_server 200 (Some stored_alice) None) (mounting (Some "u1"))).1
     = "Alice"
  /\ bio (loaded (profile_server 200 (Some stored_alice) None) (mounting (Some "u1"))).1
     = "".
Proof.
  split; [reflexivity |].
  destruct (load_fills_the_form (profile_server 200 (Some stored_alice) None)
              (mounting (Some "u1")) 200 stored_alice None eq_refl eq_refl eq_refl)
    as (Hn & Hb & _).
  split; [exact Hn | exact Hb].
Defined.

(** X15 with an endpoint that answers 404 and "User not found". *)
Lemma load_refused_keeps_draft_alice :
  response_ok 404 = false
  /\ error (loaded (profile_server 404 None (Some "User not found")) alice).1
     = Some "User not found"
  /\ cleaned_draft (loaded (profile_server 404 None (Some "User not found")) alice).1
     = cleaned_draft alice
  /\ links (loaded (profile_server 404 None (Some "User not found")) alice).1 = links alice
  /\ username (loaded (profile_server 404 None (Some "User not found")) alice).1
     = username alice
  /\ load_errors (loaded (profile_server 404 None (Some "User not found")) alice).2 = 0%nat.
Proof.
  split; [reflexivity |].
  apply (load_refused_keeps_draft (profile_server 404 None (Some "User not found")) alice
           404 None (Some "User not found")); reflexivity.
Defined.

(** X16 with a success reply that has no user. *)
Lemma load_failure_keeps_draft_alice :
  error (loaded (profile_server 200 None None) alice).1
    = Some "An unexpected error occurred"
  /\ cleaned_draft (loaded (profile_server 200 None None) alice).1 = cleaned_draft alice
  /\ links (loaded (profile_server 200 None None) alice).1 = links alice
  /\ username (loaded (profile_server 200 None None) alice).1 = username alice
  /\ load_errors (loaded (profile_server 200 None None) alice).2 = 1%nat.
Proof.
  apply (load_failure_keeps_draft (profile_server 200 None None) alice);
    [reflexivity |].
  right. right. exists 200%nat, None. split; reflexivity.
Defined.


(** X19 on the text a@b.c. *)
Lemma emailRegex_accepted_shape_sample :
  Settings.test Settings.emailRegex (Settings.units "a@b.c") = true
  /\ count_occ N.eq_dec (Settings.units "a@b.c") 64%N = 1%nat
  /\ Forall (fun x => Settings.is_space x = false) (Settings.units "a@b.c")
  /\ (5 <= length (Settings.units "a@b.c"))%nat.
Proof.
  split; [reflexivity |].
  apply (emailRegex_accepted_shape (Settings.units "a@b.c")). reflexivity.
Defined.

(** X21 with "alice at example" typed in the box. *)
Lemma invalid_email_is_announced_sample :
  Settings.test Settings.emailRegex (Settings.email (settings_page "alice at example")) = false
  /\ Settings.after (Settings.updateEmail (Some u1_session) settings_offline)
       (settings_page "alice at example")
     = (settings_page "alice at example",
        [Settings.CallConsoleError "Invalid email format";
         Settings.CallAlert "Please enter a valid email address"]).
Proof.
  split; [reflexivity |].
  apply (invalid_email_is_announced (Some u1_session) settings_offline u1_session
           (settings_page "alice at example")); reflexivity.
Defined.

(** X22 with a server that answers 200 and "Email updated". *)
Lemma update_email_feedback_sample :
  Settings.test Settings.emailRegex (Settings.email (settings_page "alice@example.com")) = true
  /\ Settings.alerts
       (Settings.after
          (Settings.updateEmail (Some u1_session) (settings_server 200 (Some "Email updated")))
          (settings_page "alice@example.com")).2
     = ["Email updated"].
Proof.
  split; [reflexivity |].
  apply (update_email_feedback (Some u1_session) (settings_server 200 (Some "Email updated"))
           u1_session (settings_page "alice@example.com") 200
           (Settings.Object None (Some "Email updated"))); reflexivity.
Defined.

(** X23 with a server that cannot be reached. *)
Lemma update_email_silent_failures_sample :
  Settings.alerts
    (Settings.after (Settings.updateEmail (Some u1_session) settings_offline)
       (settings_page "alice@example.com")).2 = []
  /\ exists text,
       last (Settings.after (Settings.updateEmail (Some u1_session) settings_offline)
               (settings_page "alice@example.com")).2
       = Some (Settings.CallConsoleError text).
Proof.
  apply (update_email_silent_failures (Some u1_session) settings_offline
           (settings_page "alice@example.com")).
  right. exists u1_session. split; [reflexivity |]. split; [reflexivity |].
  left. reflexivity.
Defined.

(** X24 on a page without a session. *)
Lemma delete_without_session_stays_loading_sample :
  Settings.loading
    (Settings.after (Settings.deleteUser None settings_offline true)
       (settings_page "alice@example.com")).1 = true
  /\ Settings.fetches
       (Settings.after (Settings.deleteUser None settings_offline true)
          (settings_page "alice@example.com")).2 = [].
Proof.
  rewrite (delete_without_session_stays_loading None settings_offline true
             (settings_page "alice@example.com") eq_refl).
  split; reflexivity.
Defined.

(** X25 with a server that answers 200. *)
Lemma sign_out_iff_deletion_confirmed_sample :
  Settings.fetches
    (Settings.after (Settings.deleteUser (Some u1_session) (settings_server 200 None) true)
       (settings_page "alice@example.com")).2
  = [("/api/updateSettings", "DELETE", Some (Settings.DeleteBody "u1"))]
  /\ Settings.signOuts
       (Settings.after (Settings.deleteUser (Some u1_session) (settings_server 200 None) true)
          (settings_page "alice@example.com")).2
     = ["/"].
Proof.
  exact (sign_out_iff_deletion_confirmed (Some u1_session) (settings_server 200 None) true
           u1_session (settings_page "alice@example.com") eq_refl).
Defined.

(** X26 with a server that answers 200 and a sign-out that fails. *)
Lemma delete_confirmed_outcome_sample :
  response_ok 200 = true
  /\ Settings.loading
       (Settings.after (Settings.deleteUser (Some u1_session) (settings_server 200 None) false)
          (settings_page "alice@example.com")).1 = false
  /\ Settings.alerts
       (Settings.after (Settings.deleteUser (Some u1_session) (settings_server 200 None) false)
          (settings_page "alice@example.com")).2
     = ["Error deleting account"].
Proof.
  split; [reflexivity |].
  exact (delete_confirmed_outcome (Some u1_session) (settings_server 200 None) false
           u1_session (settings_page "alice@example.com") 200 (Settings.Object None None)
           eq_refl eq_refl eq_refl).
Defined.

(** X27 with a server that answers 500. *)
Lemma delete_not_confirmed_outcome_sample :
  response_ok 500 = false
  /\ (Settings.after (Settings.deleteUser (Some u1_session) (settings_server 500 None) true)
        (settings_page "alice@example.com")).1
     = Settings.with_loading false (settings_page "alice@example.com")
  /\ Settings.signOuts
       (Settings.after (Settings.deleteUser (Some u1_session) (settings_server 500 None) true)
          (settings_page "alice@example.com")).2 = []
  /\ Settings.alerts
       (Settings.after (Settings.deleteUser (Some u1_session) (settings_server 500 None) true)
          (settings_page "alice@example.com")).2
     = ["Failed to delete account"].
Proof.
  split; [reflexivity |].
  apply (delete_not_confirmed_outcome (Some u1_session) (settings_server 500 None) true
           u1_session (settings_page "alice@example.com") eq_refl).
  right. exists 500%nat, (Settings.Object None None). split; reflexivity.
Defined.
